(** * A shallow embedding of internal/exporter/exporter.go (speedtest_exporter)

    Floating-point values ([float64]) are modelled as exact rationals [Q];
    Go strings as [String.string] (byte strings); [int] as [Z].  The
    measurement provider (the speedtest-go library) is an opaque record of
    operations; the Prometheus channel is the output of a writer monad in
    which a Go panic is the outcome [None]. *)

From Stdlib Require Import String Ascii List ZArith QArith Qabs Lqa Bool Lia.
Import ListNotations.

Open Scope string_scope.

(* ------------------------------------------------------------------ *)
(** ** normalizeSpeed (exporter.go, lines 155-175) *)

Definition Qltb (a b : Q) : bool := negb (Qle_bool b a).
Definition Qgeb (a b : Q) : bool := Qle_bool b a.

Definition normalizeSpeed (rawValue : Q) : Q :=
  (* A. Gbps *)
  if Qltb 0 rawValue && Qltb rawValue 20 then rawValue * 125000000
  (* B. Mbps *)
  else if Qgeb rawValue 20 && Qltb rawValue 20000 then rawValue * 125000
  (* C. Kbps *)
  else if Qgeb rawValue 20000 && Qltb rawValue 20000000 then rawValue * 125
  (* D. bits/sec *)
  else if Qgeb rawValue 20000000 then rawValue / 8
  (* fallback *)
  else rawValue / 8.

(* ------------------------------------------------------------------ *)
(** ** strings.HasPrefix and strings.Replace(s, old, new, 1) *)

(** [strings.HasPrefix s p]. *)
Definition HasPrefix (s p : string) : bool := String.prefix p s.

(** [strings.Replace s old new 1] for a non-empty [old]: the first
    occurrence of [old] (leftmost, as found by [strings.Index]) is replaced
    by [new]; without an occurrence [s] is returned. *)
Definition Replace1 (s old new : string) : string :=
  match String.index 0 old s with
  | Some i =>
      substring 0 i s ++ new
        ++ substring (i + String.length old)
             (String.length s - (i + String.length old)) s
  | None => s
  end.


(* ------------------------------------------------------------------ *)
(** ** Data of the speedtest-go library used by the exporter *)

(** Go's [error]-returning results. *)
Inductive result (A : Type) : Type :=
| Ok (a : A)
| Err (e : string).
Arguments Ok {A} a.
Arguments Err {A} e.

(** [speedtest.User]. *)
Record User := mkUser {
  user_IP : string;
  user_Lat : string;
  user_Lon : string;
  user_Isp : string
}.

(** [speedtest.Server]; [Latency] is a [time.Duration] (nanoseconds),
    [DLSpeed] and [ULSpeed] the throughputs the provider writes back. *)
Record Server := mkServer {
  URL : string;
  Lat : string;
  Lon : string;
  Name : string;
  Country : string;
  Sponsor : string;
  ID : string;
  Host : string;
  Distance : Q;
  Latency : Z;
  DLSpeed : Q;
  ULSpeed : Q
}.

Definition set_URL (u : string) (s : Server) : Server :=
  {| URL := u; Lat := Lat s; Lon := Lon s; Name := Name s; Country := Country s;
     Sponsor := Sponsor s; ID := ID s; Host := Host s; Distance := Distance s;
     Latency := Latency s; DLSpeed := DLSpeed s; ULSpeed := ULSpeed s |}.

Definition set_Latency (l : Z) (s : Server) : Server :=
  {| URL := URL s; Lat := Lat s; Lon := Lon s; Name := Name s; Country := Country s;
     Sponsor := Sponsor s; ID := ID s; Host := Host s; Distance := Distance s;
     Latency := l; DLSpeed := DLSpeed s; ULSpeed := ULSpeed s |}.

Definition set_DLSpeed (v : Q) (s : Server) : Server :=
  {| URL := URL s; Lat := Lat s; Lon := Lon s; Name := Name s; Country := Country s;
     Sponsor := Sponsor s; ID := ID s; Host := Host s; Distance := Distance s;
     Latency := Latency s; DLSpeed := v; ULSpeed := ULSpeed s |}.

Definition set_ULSpeed (v : Q) (s : Server) : Server :=
  {| URL := URL s; Lat := Lat s; Lon := Lon s; Name := Name s; Country := Country s;
     Sponsor := Sponsor s; ID := ID s; Host := Host s; Distance := Distance s;
     Latency := Latency s; DLSpeed := DLSpeed s; ULSpeed := v |}.

(** The measurement provider: the operations the exporter calls on the
    speedtest-go library.  [PingTest], [DownloadTest] and [UploadTest] are
    the methods on [*Server]: on success they yield the value the library
    stores in [server.Latency], [server.DLSpeed] and [server.ULSpeed]. *)
Record Provider := mkProvider {
  FetchUserInfo : result User;
  FetchServerList : User -> result (list Server);
  FindServer : list Server -> list Z -> result (list Server);
  PingTest : Server -> result Z;
  DownloadTest : bool -> Server -> result Q;
  UploadTest : bool -> Server -> result Q
}.

(* ------------------------------------------------------------------ *)
(** ** Prometheus descriptors and constant metrics *)

Record Desc := mkDesc {
  fqName : string;
  help : string;
  variableLabels : list string
}.

Inductive ValueType := GaugeValue.

Record Metric := mkMetric {
  m_desc : Desc;
  m_valueType : ValueType;
  m_value : Q;
  m_labelValues : list string
}.

(** [prometheus.BuildFQName]. *)
Definition BuildFQName (namespace subsystem name : string) : string :=
  if String.eqb name "" then ""
  else if negb (String.eqb namespace "") && negb (String.eqb subsystem "")
  then namespace ++ "_" ++ subsystem ++ "_" ++ name
  else if negb (String.eqb namespace "") then namespace ++ "_" ++ name
  else if negb (String.eqb subsystem "") then subsystem ++ "_" ++ name
  else name.

Definition namespace : string := "speedtest".

Definition context_label_names : list string :=
  ["test_uuid"; "user_lat"; "user_lon"; "user_ip"; "user_isp"; "server_lat";
   "server_lon"; "server_id"; "server_name"; "server_country"; "distance"].

Definition up : Desc :=
  mkDesc (BuildFQName namespace "" "up") "Was the last speedtest successful."
    ["test_uuid"].
Definition scrapeDurationSeconds : Desc :=
  mkDesc (BuildFQName namespace "" "scrape_duration_seconds")
    "Time to preform last speed test" ["test_uuid"].
Definition latency : Desc :=
  mkDesc (BuildFQName namespace "" "latency_seconds")
    "Measured latency on last speed test" context_label_names.
Definition upload : Desc :=
  mkDesc (BuildFQName namespace "" "upload_speed_Bps")
    "Last upload speedtest result in Bytes per second" context_label_names.
Definition download : Desc :=
  mkDesc (BuildFQName namespace "" "download_speed_Bps")
    "Last download speedtest result in Bytes per second" context_label_names.

(** [utf8.ValidString], byte by byte, with Go's accept ranges for the
    second byte of a sequence led by E0, ED, F0 and F4. *)
Definition in_range (lo hi b : nat) : bool := Nat.leb lo b && Nat.leb b hi.

Fixpoint valid_utf8_bytes (l : list nat) : bool :=
  match l with
  | [] => true
  | b :: r =>
      if Nat.ltb b 128 then valid_utf8_bytes r
      else if in_range 194 223 b then
        match r with
        | c :: r' => in_range 128 191 c && valid_utf8_bytes r'
        | [] => false
        end
      else if in_range 224 239 b then
        let lo := if Nat.eqb b 224 then 160%nat else 128%nat in
        let hi := if Nat.eqb b 237 then 159%nat else 191%nat in
        match r with
        | c1 :: c2 :: r' =>
            in_range lo hi c1 && in_range 128 191 c2 && valid_utf8_bytes r'
        | _ => false
        end
      else if in_range 240 244 b then
        let lo := if Nat.eqb b 240 then 144%nat else 128%nat in
        let hi := if Nat.eqb b 244 then 143%nat else 191%nat in
        match r with
        | c1 :: c2 :: c3 :: r' =>
            in_range lo hi c1 && in_range 128 191 c2 && in_range 128 191 c3
            && valid_utf8_bytes r'
        | _ => false
        end
      else false
  end.

Definition ValidString (s : string) : bool :=
  valid_utf8_bytes (map nat_of_ascii (list_ascii_of_string s)).

(** [validateLabelValues]: the count first, then UTF-8 validity. *)
Definition validateLabelValues (vals : list string) (expected : nat)
  : option string :=
  if negb (Nat.eqb (length vals) expected) then Some "inconsistent label cardinality"
  else if forallb ValidString vals then None
  else Some "label value is not valid UTF-8".

(** [prometheus.NewConstMetric]; the descriptors above are built from valid
    names, so their [desc.err] is nil. *)
Definition NewConstMetric (d : Desc) (vt : ValueType) (v : Q) (lvs : list string)
  : result Metric :=
  match validateLabelValues lvs (length (variableLabels d)) with
  | Some e => Err e
  | None => Ok (mkMetric d vt v lvs)
  end.

(* ------------------------------------------------------------------ *)
(** ** Effects: provider calls and channel sends, Go panics *)

(** The observable events of a cycle: a call into the provider, or a
    metric sent on the Prometheus channel [ch]. *)
Inductive Op := OpFetchUserInfo | OpFetchServerList | OpPingTest
              | OpDownloadTest | OpUploadTest.

Inductive Event :=
| Invoke (o : Op)
| Send (m : Metric).

(** A computation yields its value ([None] when it panics) and the events
    it produced, in order. *)
Definition M (A : Type) : Type := (option A * list Event)%type.

Definition ret {A} (a : A) : M A := (Some a, []).

Definition bind {A B} (m : M A) (f : A -> M B) : M B :=
  match m with
  | (Some a, t1) => let '(r, t2) := f a in (r, (t1 ++ t2)%list)
  | (None, t1) => (None, t1)
  end.

Notation "x <- m ;; k" := (bind m (fun x => k))
  (at level 61, m at next level, right associativity).
Notation "' p <- m ;; k" := (bind m (fun x => match x with p => k end))
  (at level 61, p pattern, m at next level, right associativity).

Definition panic {A} : M A := (None, []).
Definition invoke {A} (o : Op) (a : A) : M A := (Some a, [Invoke o]).
Definition send (m : Metric) : M unit := (Some tt, [Send m]).

(** [prometheus.MustNewConstMetric]: panics on the error of [NewConstMetric]. *)
Definition MustNewConstMetric (d : Desc) (vt : ValueType) (v : Q)
  (lvs : list string) : M Metric :=
  match NewConstMetric d vt v lvs with
  | Ok m => ret m
  | Err _ => panic
  end.

(** The methods on [*Server]: they call the provider and, on success,
    store the measured value in the server object, which is threaded
    explicitly.  [*_call] is the effect on the object, [server_*] the call
    as it appears in the trace. *)
Definition ping_call (P : Provider) (server : Server) : option string * Server :=
  match PingTest P server with
  | Ok l => (None, set_Latency l server)
  | Err e => (Some e, server)
  end.

Definition download_call (P : Provider) (savingMode : bool) (server : Server)
  : option string * Server :=
  match DownloadTest P savingMode server with
  | Ok v => (None, set_DLSpeed v server)
  | Err e => (Some e, server)
  end.

Definition upload_call (P : Provider) (savingMode : bool) (server : Server)
  : option string * Server :=
  match UploadTest P savingMode server with
  | Ok v => (None, set_ULSpeed v server)
  | Err e => (Some e, server)
  end.

Definition server_PingTest (P : Provider) (server : Server)
  : M (option string * Server) :=
  invoke OpPingTest (ping_call P server).

Definition server_DownloadTest (P : Provider) (savingMode : bool) (server : Server)
  : M (option string * Server) :=
  invoke OpDownloadTest (download_call P savingMode server).

Definition server_UploadTest (P : Provider) (savingMode : bool) (server : Server)
  : M (option string * Server) :=
  invoke OpUploadTest (upload_call P savingMode server).

(* ------------------------------------------------------------------ *)
(** ** fmt.Sprintf("%f", x) and time.Duration.Seconds *)

Fixpoint uint_to_string (u : Decimal.uint) : string :=
  match u with
  | Decimal.Nil => ""
  | Decimal.D0 u => "0" ++ uint_to_string u
  | Decimal.D1 u => "1" ++ uint_to_string u
  | Decimal.D2 u => "2" ++ uint_to_string u
  | Decimal.D3 u => "3" ++ uint_to_string u
  | Decimal.D4 u => "4" ++ uint_to_string u
  | Decimal.D5 u => "5" ++ uint_to_string u
  | Decimal.D6 u => "6" ++ uint_to_string u
  | Decimal.D7 u => "7" ++ uint_to_string u
  | Decimal.D8 u => "8" ++ uint_to_string u
  | Decimal.D9 u => "9" ++ uint_to_string u
  end.

Definition N_to_string (n : N) : string := uint_to_string (N.to_uint n).

Fixpoint zeros (k : nat) : string :=
  match k with O => "" | S k => "0" ++ zeros k end.

(** Rounding of a non-negative rational to an integer, ties to even. *)
Definition round_half_even (x : Q) : Z :=
  let n := Qnum x in
  let d := Zpos (Qden x) in
  let q := (n / d)%Z in
  let r := (n mod d)%Z in
  if (2 * r <? d)%Z then q
  else if (d <? 2 * r)%Z then (q + 1)%Z
  else if Z.even q then q else (q + 1)%Z.

(** The verb [%f]: six digits after the point, correctly rounded. *)
Definition Sprintf_f (x : Q) : string :=
  let m := Z.to_N (round_half_even (Qabs x * 1000000)) in
  let frac := N_to_string (N.modulo m 1000000) in
  (if Qltb x 0 then "-" else "")
    ++ N_to_string (N.div m 1000000) ++ "."
    ++ zeros (6 - String.length frac) ++ frac.

(** [time.Duration.Seconds]: [float64(d/Second) + float64(d%Second)/1e9]. *)
Definition Seconds (d : Z) : Q :=
  inject_Z (Z.quot d 1000000000) + inject_Z (Z.rem d 1000000000) / 1000000000.

(* ------------------------------------------------------------------ *)
(** ** The three phases (exporter.go, lines 177-231)

    Each phase returns its Go result together with the state of the
    [*Server] object after the call. *)

Definition pingTest (P : Provider) (testUUID : string) (user : User)
  (server : Server) : M (bool * Server) :=
  '(err, server) <- server_PingTest P server ;;
  match err with
  | Some _ => ret (false, server)
  | None =>
      m <- MustNewConstMetric latency GaugeValue (Seconds (Latency server))
             [testUUID; user_Lat user; user_Lon user; user_IP user; user_Isp user;
              Lat server; Lon server; ID server; Name server; Country server;
              Sprintf_f (Distance server)] ;;
      _ <- send m ;;
      ret (true, server)
  end.

Definition downloadTest (P : Provider) (testUUID : string) (user : User)
  (server : Server) : M (bool * Server) :=
  '(err, server) <- server_DownloadTest P false server ;;
  match err with
  | Some _ => ret (false, server)
  | None =>
      let rawValue := DLSpeed server in
      let speedBps := normalizeSpeed rawValue in
      m <- MustNewConstMetric download GaugeValue speedBps
             [testUUID; user_Lat user; user_Lon user; user_IP user; user_Isp user;
              Lat server; Lon server; ID server; Name server; Country server;
              Sprintf_f (Distance server)] ;;
      _ <- send m ;;
      ret (true, server)
  end.

Definition uploadTest (P : Provider) (testUUID : string) (user : User)
  (server : Server) : M (bool * Server) :=
  '(err, server) <- server_UploadTest P false server ;;
  match err with
  | Some _ => ret (false, server)
  | None =>
      let rawValue := ULSpeed server in
      let speedBps := normalizeSpeed rawValue in
      m <- MustNewConstMetric upload GaugeValue speedBps
             [testUUID; user_Lat user; user_Lon user; user_IP user; user_Isp user;
              Lat server; Lon server; ID server; Name server; Country server;
              Sprintf_f (Distance server)] ;;
      _ <- send m ;;
      ret (true, server)
  end.

(* ------------------------------------------------------------------ *)
(** ** The exporter and one collection cycle (exporter.go, lines 49-153) *)

Record Exporter := mkExporter {
  serverID : Z;
  serverFallback : bool
}.

(** Server selection, lines 104-134 of [speedtest]; [None] is the
    [return false] of each failing branch. *)
Definition select_server (e : Exporter) (P : Provider) (servers : list Server)
  : option Server :=
  if Z.eqb (serverID e) (-1) then
    match servers with
    | [] => None
    | s :: _ => Some s
    end
  else
    match FindServer P servers [serverID e] with
    | Err _ => None
    | Ok found =>
        match found with
        | [] =>
            if negb (serverFallback e) then None
            else match servers with
                 | [] => None
                 | s :: _ => Some s
                 end
        | s :: _ => Some s
        end
    end.

(** The URL workaround, lines 136-142 of [speedtest]. *)
Definition fix_server_url (server : Server) : Server :=
  if HasPrefix (URL server) "http//"
  then set_URL (Replace1 (URL server) "http//" "http://") server
  else server.

(** Lines 136-152 of [speedtest]: the URL workaround, then the three phases
    on the selected server; the final state of the server object is
    returned with the overall result. *)
Definition run_tests (P : Provider) (testUUID : string) (user : User)
  (server : Server) : M (bool * Server) :=
  let server := fix_server_url server in
  '(pingSuccess, server) <- pingTest P testUUID user server ;;
  '(downloadSuccess, server) <- downloadTest P testUUID user server ;;
  '(uploadSuccess, server) <- uploadTest P testUUID user server ;;
  ret (pingSuccess && downloadSuccess && uploadSuccess, server).

Definition speedtest (e : Exporter) (P : Provider) (testUUID : string) : M bool :=
  user <- invoke OpFetchUserInfo (FetchUserInfo P) ;;
  match user with
  | Err _ => ret false
  | Ok user =>
      serverList <- invoke OpFetchServerList (FetchServerList P user) ;;
      match serverList with
      | Err _ => ret false
      | Ok servers =>
          match select_server e P servers with
          | None => ret false
          | Some server =>
              '(ok, _) <- run_tests P testUUID user server ;;
              ret ok
          end
      end
  end.

(** [Collect]; [testUUID] is the fresh [uuid.New().String()] and [duration]
    the elapsed [time.Since(start).Seconds()] after [speedtest]. *)
Definition Collect (e : Exporter) (P : Provider) (testUUID : string)
  (duration : Q) : M unit :=
  ok <- speedtest e P testUUID ;;
  m <- MustNewConstMetric scrapeDurationSeconds GaugeValue duration [testUUID] ;;
  _ <- send m ;;
  if ok then
    (m <- MustNewConstMetric up GaugeValue 1 [testUUID] ;; send m)
  else
    (m <- MustNewConstMetric up GaugeValue 0 [testUUID] ;; send m).

(* ------------------------------------------------------------------ *)
(** ** The identifier lookup of speedtest-go's [Servers.FindServer] *)

(** [strconv.Atoi] as [FindServer] uses it ([id, _ := strconv.Atoi(s.ID)]):
    the value, 0 on a syntax error, clamped to the int64 range on overflow. *)
Definition digit_value (c : ascii) : option Z :=
  let n := nat_of_ascii c in
  if Nat.leb 48 n && Nat.leb n 57 then Some (Z.of_nat n - 48)%Z else None.

Inductive parse_outcome := PDone (v : Z) | PSyntax | PRange.

Fixpoint parse_uint (l : list ascii) (acc : Z) : parse_outcome :=
  match l with
  | [] => PDone acc
  | c :: l' =>
      match digit_value c with
      | None => PSyntax
      | Some d =>
          let n := (acc * 10 + d)%Z in
          if (2 ^ 64 - 1 <? n)%Z then PRange else parse_uint l' n
      end
  end.

Definition Atoi (s : string) : Z :=
  let '(neg, digits) :=
    match list_ascii_of_string s with
    | "+"%char :: r => (false, r)
    | "-"%char :: r => (true, r)
    | r => (false, r)
    end in
  match digits with
  | [] => 0%Z
  | _ =>
      match parse_uint digits 0 with
      | PSyntax => 0%Z
      | PRange => if neg then (- 2 ^ 63)%Z else (2 ^ 63 - 1)%Z
      | PDone v =>
          if neg then (if (2 ^ 63 <? v)%Z then (- 2 ^ 63)%Z else (- v)%Z)
          else (if (2 ^ 63 - 1 <? v)%Z then (2 ^ 63 - 1)%Z else v)
      end
  end.

(** speedtest-go's [Servers.FindServer] (the lookup [speedtest] calls at
    line 113): an error on an empty list; for each requested identifier the
    first server whose [ID] has that value (the inner loop breaks on a
    match); and when no identifier matched, the first server of the list
    instead of an empty result. *)
Definition Servers_FindServer (servers : list Server) (serverIDs : list Z)
  : result (list Server) :=
  match servers with
  | [] => Err "no server found"
  | first :: _ =>
      let retServer :=
        flat_map (fun sid =>
            match find (fun s => Z.eqb (Atoi (ID s)) sid) servers with
            | Some s => [s]
            | None => []
            end) serverIDs in
      match retServer with
      | [] => Ok [first]
      | _ => Ok retServer
      end
  end.

(** [New] (exporter.go, lines 56-62): the exporter and a nil error. *)
Definition New (serverID : Z) (serverFallback : bool) : Exporter * option string :=
  (mkExporter serverID serverFallback, None).

(** [Describe] (exporter.go, lines 64-71): the descriptors it sends on its
    channel, in order. *)
Definition Describe (e : Exporter) : list Desc :=
  [up; scrapeDurationSeconds; latency; upload; download].

(* ------------------------------------------------------------------ *)
(** ** The earlier version of the phases (src/unnamed/part_002)

    That file is exporter.go with another download and upload phase: a
    reading above [speedThreshold] is taken as bytes per second, any other
    as Mbps.  Everything else in it is as above. *)

Module Legacy.

Definition speedThreshold : Q := 20000.

Definition downloadTest (P : Provider) (testUUID : string) (user : User)
  (server : Server) : M (bool * Server) :=
  '(err, server) <- server_DownloadTest P false server ;;
  match err with
  | Some _ => ret (false, server)
  | None =>
      let rawValue := DLSpeed server in
      let speedBps :=
        if Qltb speedThreshold rawValue then rawValue else rawValue * 125000 in
      m <- MustNewConstMetric download GaugeValue speedBps
             [testUUID; user_Lat user; user_Lon user; user_IP user; user_Isp user;
              Lat server; Lon server; ID server; Name server; Country server;
              Sprintf_f (Distance server)] ;;
      _ <- send m ;;
      ret (true, server)
  end.

Definition uploadTest (P : Provider) (testUUID : string) (user : User)
  (server : Server) : M (bool * Server) :=
  '(err, server) <- server_UploadTest P false server ;;
  match err with
  | Some _ => ret (false, server)
  | None =>
      let rawValue := ULSpeed server in
      let speedBps :=
        if Qltb speedThreshold rawValue then rawValue else rawValue * 125000 in
      m <- MustNewConstMetric upload GaugeValue speedBps
             [testUUID; user_Lat user; user_Lon user; user_IP user; user_Isp user;
              Lat server; Lon server; ID server; Name server; Country server;
              Sprintf_f (Distance server)] ;;
      _ <- send m ;;
      ret (true, server)
  end.

End Legacy.

(* ------------------------------------------------------------------ *)
(** ** Observations on a cycle *)

(** The provider calls and the metrics sent, in order. *)
Definition invoked (tr : list Event) : list Op :=
  flat_map (fun ev => match ev with Invoke o => [o] | Send _ => [] end) tr.

Definition sent (tr : list Event) : list Metric :=
  flat_map (fun ev => match ev with Send m => [m] | Invoke _ => [] end) tr.

(** How many metrics of the kind of [d] were sent. *)
Definition count_desc (d : Desc) (tr : list Event) : nat :=
  length (filter (fun m => String.eqb (fqName (m_desc m)) (fqName d)) (sent tr)).

(** The label values of the latency, download and upload metrics. *)
Definition context_labels (testUUID : string) (user : User) (server : Server)
  : list string :=
  [testUUID; user_Lat user; user_Lon user; user_IP user; user_Isp user;
   Lat server; Lon server; ID server; Name server; Country server;
   Sprintf_f (Distance server)].

Definition user_strings_ok (u : User) : bool :=
  forallb ValidString [user_Lat u; user_Lon u; user_IP u; user_Isp u].

Definition server_strings_ok (s : Server) : bool :=
  forallb ValidString [Lat s; Lon s; ID s; Name s; Country s].

(** The strings the provider hands out are valid UTF-8 (speedtest-go
    decodes users and servers with encoding/xml, which refuses invalid
    UTF-8); [FindServer] returns servers of the list it is given. *)
Record WellFormed (P : Provider) : Prop := {
  wf_user : forall u, FetchUserInfo P = Ok u -> user_strings_ok u = true;
  wf_list : forall u l, FetchServerList P u = Ok l ->
    forallb server_strings_ok l = true;
  wf_find : forall l ids found, forallb server_strings_ok l = true ->
    FindServer P l ids = Ok found -> forallb server_strings_ok found = true
}.

(** The user and server a cycle runs its phases with, if it gets that far. *)
Definition selection (e : Exporter) (P : Provider) : option (User * Server) :=
  match FetchUserInfo P with
  | Err _ => None
  | Ok u =>
      match FetchServerList P u with
      | Err _ => None
      | Ok l => option_map (fun s => (u, s)) (select_server e P l)
      end
  end.

Definition no_err (err : option string) : bool :=
  match err with None => true | Some _ => false end.

(** Whether the ping, download and upload calls succeed on the selected
    (repaired) server, each on the object left by the previous one. *)
Definition phase_outcomes (P : Provider) (server : Server) : bool * bool * bool :=
  let server := fix_server_url server in
  let '(e1, s2) := ping_call P server in
  let '(e2, s3) := download_call P false s2 in
  let '(e3, _) := upload_call P false s3 in
  (no_err e1, no_err e2, no_err e3).

(** A cycle without any error: fetches, selection and the three phases. *)
Definition cycle_succeeds (e : Exporter) (P : Provider) : bool :=
  match selection e P with
  | None => false
  | Some (_, s) => let '(a, b, c) := phase_outcomes P s in a && b && c
  end.

(** The kinds of the phase metrics a cycle sends for given phase outcomes. *)
Definition phase_kinds (outcomes : bool * bool * bool) : list Desc :=
  let '(a, b, c) := outcomes in
  ((if a then [latency] else []) ++ (if b then [download] else [])
   ++ (if c then [upload] else []))%list.

(** Strings of 7-bit characters only. *)
Definition ascii_string (s : string) : bool :=
  forallb (fun c => Nat.ltb (nat_of_ascii c) 128) (list_ascii_of_string s).

(** The fields of the server that label the phase metrics. *)
Definition same_context (s s' : Server) : Prop :=
  Lat s' = Lat s /\ Lon s' = Lon s /\ ID s' = ID s /\ Name s' = Name s /\
  Country s' = Country s /\ Distance s' = Distance s.

(** The provider [P] with its phase calls refusing any server whose URL
    still starts with "http//". *)
Definition guard_urls (P : Provider) : Provider := {|
  FetchUserInfo := FetchUserInfo P;
  FetchServerList := FetchServerList P;
  FindServer := FindServer P;
  PingTest := fun s =>
    if HasPrefix (URL s) "http//" then Err "malformed URL" else PingTest P s;
  DownloadTest := fun b s =>
    if HasPrefix (URL s) "http//" then Err "malformed URL" else DownloadTest P b s;
  UploadTest := fun b s =>
    if HasPrefix (URL s) "http//" then Err "malformed URL" else UploadTest P b s
|}.

(* ------------------------------------------------------------------ *)
(** ** Sample inputs *)

Definition example_user : User := mkUser "192.0.2.1" "52.52" "13.40" "ExampleNet".

Definition example_server (id url : string) : Server :=
  mkServer url "52.50" "13.38" "Berlin" "Germany" "Sponsor" id
    "speed.example:8080" (21 # 10) 0 0 0.

(** Two servers; ping, download and upload all succeed. *)
Definition example_provider : Provider := {|
  FetchUserInfo := Ok example_user;
  FetchServerList := fun _ =>
    Ok [example_server "100" "http//a.example/upload.php";
        example_server "200" "http://b.example/upload.php"];
  FindServer := Servers_FindServer;
  PingTest := fun _ => Ok 5000000%Z;
  DownloadTest := fun _ _ => Ok (94 # 1);
  UploadTest := fun _ _ => Ok (31 # 1)
|}.

(* ================================================================== *)
(** * Properties *)

(** ** Comparisons of the normalizer *)

Lemma Qltb_true (a b : Q) : Qltb a b = true <-> a < b.
Proof.
  unfold Qltb. rewrite negb_true_iff. split.
  - intros H. apply Qnot_le_lt. intros Hle. apply Qle_bool_iff in Hle. congruence.
  - intros H. destruct (Qle_bool b a) eqn:E; [|reflexivity].
    apply Qle_bool_iff in E. exfalso. apply (Qlt_not_le a b); assumption.
Qed.

Lemma Qltb_false (a b : Q) : Qltb a b = false <-> b <= a.
Proof.
  unfold Qltb. rewrite negb_false_iff. apply Qle_bool_iff.
Qed.

Lemma Qgeb_true (a b : Q) : Qgeb a b = true <-> b <= a.
Proof. apply Qle_bool_iff. Qed.

Lemma Qgeb_false (a b : Q) : Qgeb a b = false <-> a < b.
Proof.
  unfold Qgeb. split.
  - intros H. apply Qnot_le_lt. intros Hle. apply Qle_bool_iff in Hle. congruence.
  - intros H. destruct (Qle_bool b a) eqn:E; [|reflexivity].
    apply Qle_bool_iff in E. exfalso. apply (Qlt_not_le a b); assumption.
Qed.

(** Turns every comparison of [normalizeSpeed] into a hypothesis. *)
Ltac split_bands :=
  repeat match goal with
  | |- context [Qltb ?a ?b] =>
      let E := fresh "E" in
      destruct (Qltb a b) eqn:E;
      [apply Qltb_true in E | apply Qltb_false in E]
  | |- context [Qgeb ?a ?b] =>
      let E := fresh "E" in
      destruct (Qgeb a b) eqn:E;
      [apply Qgeb_true in E | apply Qgeb_false in E]
  end; simpl.

(** ** The URL workaround *)

Lemma substring_whole (s : string) : substring 0 (String.length s) s = s.
Proof. induction s as [|c s IH]; simpl; [reflexivity | now rewrite IH]. Qed.

Lemma HasPrefix_http_iff (u : string) :
  HasPrefix u "http//" = true <-> exists rest, u = "http//" ++ rest.
Proof.
  split.
  - intros H. unfold HasPrefix in H.
    repeat match goal with
    | H : String.prefix (String _ _) ?u = true |- _ =>
        destruct u; cbn [String.prefix] in H; [discriminate|]
    | H : context [Ascii.ascii_dec ?a ?b] |- _ =>
        destruct (Ascii.ascii_dec a b); [subst|discriminate]
    end.
    eexists. reflexivity.
  - intros [rest ->]. unfold HasPrefix. destruct rest; reflexivity.
Qed.

Lemma Replace1_http (rest : string) :
  Replace1 ("http//" ++ rest) "http//" "http://" = "http://" ++ rest.
Proof.
  unfold Replace1.
  assert (Hi : String.index 0 "http//" ("http//" ++ rest) = Some 0%nat)
    by (destruct rest; reflexivity).
  rewrite Hi. simpl.
  rewrite Nat.sub_0_r, substring_whole. reflexivity.
Qed.

Lemma fix_server_url_other_fields (s : Server) :
  Lat (fix_server_url s) = Lat s /\ Lon (fix_server_url s) = Lon s /\
  Name (fix_server_url s) = Name s /\ Country (fix_server_url s) = Country s /\
  Sponsor (fix_server_url s) = Sponsor s /\ ID (fix_server_url s) = ID s /\
  Host (fix_server_url s) = Host s /\ Distance (fix_server_url s) = Distance s /\
  Latency (fix_server_url s) = Latency s /\ DLSpeed (fix_server_url s) = DLSpeed s /\
  ULSpeed (fix_server_url s) = ULSpeed s.
Proof.
  unfold fix_server_url. destruct (HasPrefix (URL s) "http//"); simpl;
  repeat split.
Qed.

Lemma fix_server_url_URL (s : Server) :
  (forall rest, URL s = "http//" ++ rest -> URL (fix_server_url s) = "http://" ++ rest) /\
  (HasPrefix (URL s) "http//" = false -> fix_server_url s = s).
Proof.
  unfold fix_server_url. split.
  - intros rest E. rewrite E.
    assert (Hp : HasPrefix ("http//" ++ rest) "http//" = true)
      by (apply HasPrefix_http_iff; eauto).
    rewrite Hp. simpl. apply Replace1_http.
  - intros E. now rewrite E.
Qed.

Lemma fix_server_url_no_prefix (s : Server) :
  HasPrefix (URL (fix_server_url s)) "http//" = false.
Proof.
  destruct (HasPrefix (URL s) "http//") eqn:E.
  - apply HasPrefix_http_iff in E. destruct E as [rest E].
    rewrite (proj1 (fix_server_url_URL s) rest E). reflexivity.
  - now rewrite (proj2 (fix_server_url_URL s) E).
Qed.

(* ------------------------------------------------------------------ *)
(** ** Claims about the normalizer and the URL workaround *)

(** C1: [normalizeSpeed] follows the band table: (0,20) times 125000000,
    [20,20000) times 125000, [20000,20000000) times 125, from 20000000 on
    divided by 8, and zero or negative values divided by 8; in particular
    10 gives 1250000000, 20 gives 2500000, 0 gives 0 and -5 gives -5/8. *)
Theorem normalizeSpeed_band_table (r : Q) :
  (0 < r /\ r < 20 -> normalizeSpeed r = r * 125000000) /\
  (20 <= r /\ r < 20000 -> normalizeSpeed r = r * 125000) /\
  (20000 <= r /\ r < 20000000 -> normalizeSpeed r = r * 125) /\
  (20000000 <= r -> normalizeSpeed r = r / 8) /\
  (r <= 0 -> normalizeSpeed r = r / 8) /\
  normalizeSpeed 10 == 1250000000 /\ normalizeSpeed 20 == 2500000 /\
  normalizeSpeed 0 == 0 /\ normalizeSpeed (-5) == -5 # 8.
Proof.
  unfold normalizeSpeed.
  repeat split; intros; try (vm_compute; reflexivity);
    repeat match goal with H : _ /\ _ |- _ => destruct H end;
    split_bands; try reflexivity; lra.
Qed.

Lemma normalizeSpeed_band_table_witness :
  (0 < 10 /\ 10 < 20) /\ normalizeSpeed 10 = 10 * 125000000.
Proof.
  assert (H : 0 < 10 /\ 10 < 20) by (split; reflexivity).
  split; [exact H|].
  exact (proj1 (normalizeSpeed_band_table 10) H).
Defined.

(** C3: the workaround rewrites the server's URL exactly when it starts
    with "http//", replacing that occurrence by "http://"; any other URL,
    "http://..." and "ftp//..." among them, is left unchanged. *)
Theorem fix_server_url_rewrites_http_slash_slash (s : Server) :
  (forall rest, URL s = "http//" ++ rest ->
     URL (fix_server_url s) = "http://" ++ rest) /\
  ((~ exists rest, URL s = "http//" ++ rest) -> fix_server_url s = s) /\
  URL (fix_server_url (set_URL "http//x.example" s)) = "http://x.example" /\
  URL (fix_server_url (set_URL "http://y.example" s)) = "http://y.example" /\
  URL (fix_server_url (set_URL "ftp//z" s)) = "ftp//z".
Proof.
  split; [apply fix_server_url_URL|].
  split; [|repeat split].
  intros Hn. apply (proj2 (fix_server_url_URL s)).
  destruct (HasPrefix (URL s) "http//") eqn:E; [|reflexivity].
  exfalso. apply Hn. now apply HasPrefix_http_iff.
Qed.

Lemma fix_server_url_rewrites_http_slash_slash_witness :
  URL (mkServer "http//x" "" "" "" "" "" "1" "" 0 0 0 0) = "http//" ++ "x" /\
  URL (fix_server_url (mkServer "http//x" "" "" "" "" "" "1" "" 0 0 0 0))
    = "http://" ++ "x".
Proof.
  split; [reflexivity|].
  apply (proj1 (fix_server_url_rewrites_http_slash_slash
                  (mkServer "http//x" "" "" "" "" "" "1" "" 0 0 0 0)) "x").
  reflexivity.
Defined.

(** C10: the repaired URL never starts with "http//", so applying the
    workaround a second time changes nothing. *)
Theorem fix_server_url_idempotent (s : Server) :
  HasPrefix (URL (fix_server_url s)) "http//" = false /\
  fix_server_url (fix_server_url s) = fix_server_url s.
Proof.
  pose proof (fix_server_url_no_prefix s) as H.
  split; [exact H|].
  exact (proj2 (fix_server_url_URL (fix_server_url s)) H).
Qed.

(* ------------------------------------------------------------------ *)
(** ** Label values are valid *)

Lemma ascii_string_valid (s : string) : ascii_string s = true -> ValidString s = true.
Proof.
  unfold ascii_string, ValidString.
  induction (list_ascii_of_string s) as [|c l IH]; simpl; [reflexivity|].
  rewrite andb_true_iff. intros [Hc Hl]. rewrite Hc. now apply IH.
Qed.

Lemma ascii_string_app (a b : string) :
  ascii_string (a ++ b) = ascii_string a && ascii_string b.
Proof.
  induction a as [|c a IH]; [reflexivity|].
  unfold ascii_string in *. simpl. rewrite IH. apply andb_assoc.
Qed.

Lemma uint_to_string_ascii (u : Decimal.uint) : ascii_string (uint_to_string u) = true.
Proof. induction u; simpl; auto. Qed.

Lemma zeros_ascii (k : nat) : ascii_string (zeros k) = true.
Proof. induction k; simpl; auto. Qed.

Lemma Sprintf_f_valid (x : Q) : ValidString (Sprintf_f x) = true.
Proof.
  apply ascii_string_valid. unfold Sprintf_f, N_to_string.
  rewrite !ascii_string_app, !uint_to_string_ascii, zeros_ascii.
  destruct (Qltb x 0); reflexivity.
Qed.

Lemma context_labels_valid (testUUID : string) (u : User) (s : Server) :
  ValidString testUUID = true -> user_strings_ok u = true ->
  server_strings_ok s = true ->
  forallb ValidString (context_labels testUUID u s) = true.
Proof.
  unfold user_strings_ok, server_strings_ok, context_labels. simpl.
  rewrite Sprintf_f_valid. intros -> Hu Hs.
  rewrite !andb_true_iff in *.
  destruct Hu as (-> & -> & -> & -> & _), Hs as (-> & -> & -> & -> & -> & _).
  repeat split.
Qed.

Lemma MustNewConstMetric_ok (d : Desc) (vt : ValueType) (v : Q) (lvs : list string) :
  length lvs = length (variableLabels d) -> forallb ValidString lvs = true ->
  MustNewConstMetric d vt v lvs = ret (mkMetric d vt v lvs).
Proof.
  intros Hl Hv. unfold MustNewConstMetric, NewConstMetric, validateLabelValues.
  rewrite Hl, Nat.eqb_refl, Hv. reflexivity.
Qed.

(* ------------------------------------------------------------------ *)
(** ** The provider calls keep the label fields of the server *)

Lemma ping_call_cases (P : Provider) (s : Server) :
  (exists err, ping_call P s = (Some err, s)) \/
  (exists l, ping_call P s = (None, set_Latency l s)).
Proof. unfold ping_call. destruct (PingTest P s); eauto. Qed.

Lemma download_call_cases (P : Provider) (b : bool) (s : Server) :
  (exists err, download_call P b s = (Some err, s)) \/
  (exists v, download_call P b s = (None, set_DLSpeed v s)).
Proof. unfold download_call. destruct (DownloadTest P b s); eauto. Qed.

Lemma upload_call_cases (P : Provider) (b : bool) (s : Server) :
  (exists err, upload_call P b s = (Some err, s)) \/
  (exists v, upload_call P b s = (None, set_ULSpeed v s)).
Proof. unfold upload_call. destruct (UploadTest P b s); eauto. Qed.

Lemma same_context_labels (testUUID : string) (u : User) (s s' : Server) :
  same_context s s' -> context_labels testUUID u s' = context_labels testUUID u s.
Proof.
  intros (H1 & H2 & H3 & H4 & H5 & H6). unfold context_labels.
  now rewrite H1, H2, H3, H4, H5, H6.
Qed.

Lemma same_context_ok (s s' : Server) :
  same_context s s' -> server_strings_ok s' = server_strings_ok s.
Proof.
  intros (H1 & H2 & H3 & H4 & H5 & H6). unfold server_strings_ok.
  now rewrite H1, H2, H3, H4, H5.
Qed.

Lemma same_context_refl (s : Server) : same_context s s.
Proof. repeat split. Qed.

Lemma same_context_trans (s1 s2 s3 : Server) :
  same_context s1 s2 -> same_context s2 s3 -> same_context s1 s3.
Proof.
  intros (A1 & A2 & A3 & A4 & A5 & A6) (B1 & B2 & B3 & B4 & B5 & B6).
  repeat split; congruence.
Qed.

Lemma ping_call_context (P : Provider) (s : Server) :
  same_context s (snd (ping_call P s)).
Proof.
  destruct (ping_call_cases P s) as [[err E]|[l E]]; rewrite E; repeat split.
Qed.

Lemma download_call_context (P : Provider) (b : bool) (s : Server) :
  same_context s (snd (download_call P b s)).
Proof.
  destruct (download_call_cases P b s) as [[err E]|[v E]]; rewrite E; repeat split.
Qed.

Lemma upload_call_context (P : Provider) (b : bool) (s : Server) :
  same_context s (snd (upload_call P b s)).
Proof.
  destruct (upload_call_cases P b s) as [[err E]|[v E]]; rewrite E; repeat split.
Qed.

Lemma fix_server_url_context (s : Server) : same_context s (fix_server_url s).
Proof.
  destruct (fix_server_url_other_fields s) as (H1 & H2 & H3 & H4 & _ & H6 & _ & H8 & _).
  repeat split; assumption.
Qed.

(* ------------------------------------------------------------------ *)
(** ** The phases, call by call *)

Lemma pingTest_shape (P : Provider) (testUUID : string) (u : User) (s : Server) :
  ValidString testUUID = true -> user_strings_ok u = true ->
  server_strings_ok s = true ->
  pingTest P testUUID u s =
    match ping_call P s with
    | (Some _, s') => (Some (false, s'), [Invoke OpPingTest])
    | (None, s') =>
        (Some (true, s'),
         [Invoke OpPingTest;
          Send (mkMetric latency GaugeValue (Seconds (Latency s'))
                  (context_labels testUUID u s'))])
    end.
Proof.
  intros Hid Hu Hs. pose proof (ping_call_context P s) as Hc.
  unfold pingTest, server_PingTest, invoke.
  destruct (ping_call P s) as [[err|] s'] eqn:E; cbn [bind snd] in *; [reflexivity|].
  erewrite (MustNewConstMetric_ok latency GaugeValue (Seconds (Latency s'))); [reflexivity|reflexivity|].
  apply (context_labels_valid testUUID u s'); auto. now rewrite (same_context_ok s s' Hc).
Qed.

Lemma downloadTest_shape (P : Provider) (testUUID : string) (u : User) (s : Server) :
  ValidString testUUID = true -> user_strings_ok u = true ->
  server_strings_ok s = true ->
  downloadTest P testUUID u s =
    match download_call P false s with
    | (Some _, s') => (Some (false, s'), [Invoke OpDownloadTest])
    | (None, s') =>
        (Some (true, s'),
         [Invoke OpDownloadTest;
          Send (mkMetric download GaugeValue (normalizeSpeed (DLSpeed s'))
                  (context_labels testUUID u s'))])
    end.
Proof.
  intros Hid Hu Hs. pose proof (download_call_context P false s) as Hc.
  unfold downloadTest, server_DownloadTest, invoke.
  destruct (download_call P false s) as [[err|] s'] eqn:E; cbn [bind snd] in *;
    [reflexivity|].
  erewrite (MustNewConstMetric_ok download GaugeValue (normalizeSpeed (DLSpeed s'))); [reflexivity|reflexivity|].
  apply (context_labels_valid testUUID u s'); auto. now rewrite (same_context_ok s s' Hc).
Qed.

Lemma uploadTest_shape (P : Provider) (testUUID : string) (u : User) (s : Server) :
  ValidString testUUID = true -> user_strings_ok u = true ->
  server_strings_ok s = true ->
  uploadTest P testUUID u s =
    match upload_call P false s with
    | (Some _, s') => (Some (false, s'), [Invoke OpUploadTest])
    | (None, s') =>
        (Some (true, s'),
         [Invoke OpUploadTest;
          Send (mkMetric upload GaugeValue (normalizeSpeed (ULSpeed s'))
                  (context_labels testUUID u s'))])
    end.
Proof.
  intros Hid Hu Hs. pose proof (upload_call_context P false s) as Hc.
  unfold uploadTest, server_UploadTest, invoke.
  destruct (upload_call P false s) as [[err|] s'] eqn:E; cbn [bind snd] in *;
    [reflexivity|].
  erewrite (MustNewConstMetric_ok upload GaugeValue (normalizeSpeed (ULSpeed s'))); [reflexivity|reflexivity|].
  apply (context_labels_valid testUUID u s'); auto. now rewrite (same_context_ok s s' Hc).
Qed.

(** The phases of [run_tests], with the events each produces. *)
Lemma run_tests_shape (P : Provider) (testUUID : string) (u : User) (s : Server) :
  ValidString testUUID = true -> user_strings_ok u = true ->
  server_strings_ok s = true ->
  let '(e1, s2) := ping_call P (fix_server_url s) in
  let '(e2, s3) := download_call P false s2 in
  let '(e3, s4) := upload_call P false s3 in
  run_tests P testUUID u s =
    (Some (no_err e1 && no_err e2 && no_err e3, s4),
     [Invoke OpPingTest]
     ++ (if no_err e1 then
           [Send (mkMetric latency GaugeValue (Seconds (Latency s2))
                    (context_labels testUUID u s))] else [])
     ++ [Invoke OpDownloadTest]
     ++ (if no_err e2 then
           [Send (mkMetric download GaugeValue (normalizeSpeed (DLSpeed s3))
                    (context_labels testUUID u s))] else [])
     ++ [Invoke OpUploadTest]
     ++ (if no_err e3 then
           [Send (mkMetric upload GaugeValue (normalizeSpeed (ULSpeed s4))
                    (context_labels testUUID u s))] else []))%list.
Proof.
  intros Hid Hu Hs. unfold run_tests. cbv zeta.
  pose proof (fix_server_url_context s) as C1.
  assert (Hs1 : server_strings_ok (fix_server_url s) = true)
    by (rewrite (same_context_ok _ _ C1); exact Hs).
  rewrite (pingTest_shape P testUUID u _ Hid Hu Hs1).
  pose proof (ping_call_context P (fix_server_url s)) as C2.
  destruct (ping_call P (fix_server_url s)) as [e1 s2]. cbn [snd] in C2.
  pose proof (same_context_trans _ _ _ C1 C2) as D2.
  assert (Hs2 : server_strings_ok s2 = true)
    by (rewrite (same_context_ok _ _ D2); exact Hs).
  pose proof (download_call_context P false s2) as C3.
  destruct (download_call P false s2) as [e2 s3] eqn:E2. cbn [snd] in C3.
  pose proof (same_context_trans _ _ _ D2 C3) as D3.
  assert (Hs3 : server_strings_ok s3 = true)
    by (rewrite (same_context_ok _ _ D3); exact Hs).
  pose proof (upload_call_context P false s3) as C4.
  destruct (upload_call P false s3) as [e3 s4] eqn:E3. cbn [snd] in C4.
  pose proof (same_context_trans _ _ _ D3 C4) as D4.
  rewrite (same_context_labels testUUID u s s2 D2).
  destruct e1 as [err1|]; cbn [bind];
    rewrite (downloadTest_shape P testUUID u s2 Hid Hu Hs2), E2;
    destruct e2 as [err2|]; cbn [bind];
    rewrite (uploadTest_shape P testUUID u s3 Hid Hu Hs3), E3;
    destruct e3 as [err3|]; cbn [bind ret no_err andb];
    rewrite ?(same_context_labels testUUID u s s3 D3),
            ?(same_context_labels testUUID u s s4 D4);
    reflexivity.
Qed.

Lemma run_tests_some (P : Provider) (testUUID : string) (u : User) (s : Server) :
  ValidString testUUID = true -> user_strings_ok u = true ->
  server_strings_ok s = true ->
  exists s' tr,
    run_tests P testUUID u s =
      (Some (let '(a, b, c) := phase_outcomes P s in a && b && c, s'), tr).
Proof.
  intros Hid Hu Hs. pose proof (run_tests_shape P testUUID u s Hid Hu Hs) as H.
  unfold phase_outcomes.
  destruct (ping_call P (fix_server_url s)) as [e1 s2].
  destruct (download_call P false s2) as [e2 s3].
  destruct (upload_call P false s3) as [e3 s4].
  rewrite H. eauto.
Qed.

(* ------------------------------------------------------------------ *)
(** ** Selection *)

Lemma select_server_from (e : Exporter) (P : Provider) (l : list Server) (s : Server) :
  select_server e P l = Some s ->
  In s l \/ exists found, FindServer P l [serverID e] = Ok found /\ In s found.
Proof.
  unfold select_server.
  destruct (Z.eqb (serverID e) (-1)).
  - destruct l as [|x l]; intros H; [discriminate|]. injection H as <-. left; now left.
  - destruct (FindServer P l [serverID e]) as [found|err] eqn:E; [|discriminate].
    destruct found as [|y found].
    + destruct (negb (serverFallback e)); [discriminate|].
      destruct l as [|x l]; intros H; [discriminate|]. injection H as <-. left; now left.
    + intros H. injection H as <-. right. exists (y :: found). split; [reflexivity|now left].
Qed.

Lemma selection_valid (e : Exporter) (P : Provider) (u : User) (s : Server) :
  WellFormed P -> selection e P = Some (u, s) ->
  user_strings_ok u = true /\ server_strings_ok s = true.
Proof.
  intros Hwf. unfold selection.
  destruct (FetchUserInfo P) as [u0|err] eqn:Eu; [|discriminate].
  destruct (FetchServerList P u0) as [l|err] eqn:El; [|discriminate].
  destruct (select_server e P l) as [s0|] eqn:Es; [|discriminate].
  intros H. injection H as <- <-. split; [exact (wf_user P Hwf u0 Eu)|].
  pose proof (wf_list P Hwf u0 l El) as Hl.
  destruct (select_server_from e P l s0 Es) as [Hin|[found [Ef Hin]]].
  - exact (proj1 (forallb_forall _ l) Hl s0 Hin).
  - exact (proj1 (forallb_forall _ found) (wf_find P Hwf l _ found Hl Ef) s0 Hin).
Qed.

(* ------------------------------------------------------------------ *)
(** ** One cycle *)

Lemma speedtest_shape (e : Exporter) (P : Provider) (testUUID : string) :
  WellFormed P -> ValidString testUUID = true ->
  match selection e P with
  | None =>
      speedtest e P testUUID = (Some false, [Invoke OpFetchUserInfo]) \/
      speedtest e P testUUID =
        (Some false, [Invoke OpFetchUserInfo; Invoke OpFetchServerList])
  | Some (u, s) =>
      exists s' tr,
        run_tests P testUUID u s = (Some (cycle_succeeds e P, s'), tr) /\
        speedtest e P testUUID =
          (Some (cycle_succeeds e P),
           [Invoke OpFetchUserInfo; Invoke OpFetchServerList] ++ tr)%list
  end.
Proof.
  intros Hwf Hid.
  destruct (selection e P) as [[u s]|] eqn:Esel.
  - destruct (selection_valid e P u s Hwf Esel) as [Hu Hs].
    destruct (run_tests_some P testUUID u s Hid Hu Hs) as (s' & tr & Hr).
    unfold cycle_succeeds. rewrite Esel.
    exists s', tr. split; [exact Hr|].
    revert Esel. unfold selection, speedtest, invoke.
    destruct (FetchUserInfo P) as [u0|err]; [|discriminate]. cbn [bind].
    destruct (FetchServerList P u0) as [l|err]; [|discriminate]. cbn [bind].
    destruct (select_server e P l) as [s0|]; [|discriminate].
    intros H. injection H as <- <-. cbn [bind].
    rewrite Hr. cbn [bind ret]. rewrite app_nil_r. reflexivity.
  - revert Esel. unfold selection, speedtest, invoke.
    destruct (FetchUserInfo P) as [u0|err]; [|intros _; left; reflexivity].
    cbn [bind].
    destruct (FetchServerList P u0) as [l|err]; [|intros _; right; reflexivity].
    cbn [bind].
    destruct (select_server e P l) as [s0|]; [discriminate|].
    intros _. right. reflexivity.
Qed.

Lemma speedtest_result (e : Exporter) (P : Provider) (testUUID : string) :
  WellFormed P -> ValidString testUUID = true ->
  exists tr, speedtest e P testUUID = (Some (cycle_succeeds e P), tr).
Proof.
  intros Hwf Hid. pose proof (speedtest_shape e P testUUID Hwf Hid) as H.
  destruct (selection e P) as [[u s]|] eqn:Esel.
  - destruct H as (s' & tr & _ & H). eauto.
  - assert (Hc : cycle_succeeds e P = false)
      by (unfold cycle_succeeds; now rewrite Esel).
    rewrite Hc. destruct H as [H|H]; eauto.
Qed.

Lemma Collect_shape (e : Exporter) (P : Provider) (testUUID : string) (duration : Q) :
  WellFormed P -> ValidString testUUID = true ->
  exists tr0,
    speedtest e P testUUID = (Some (cycle_succeeds e P), tr0) /\
    Collect e P testUUID duration =
      (Some tt,
       tr0 ++ [Send (mkMetric scrapeDurationSeconds GaugeValue duration [testUUID]);
               Send (mkMetric up GaugeValue (if cycle_succeeds e P then 1 else 0)
                       [testUUID])])%list.
Proof.
  intros Hwf Hid.
  destruct (speedtest_result e P testUUID Hwf Hid) as [tr0 Hst].
  exists tr0. split; [exact Hst|].
  assert (Hv : forallb ValidString [testUUID] = true) by (simpl; now rewrite Hid).
  unfold Collect. rewrite Hst. cbn [bind].
  rewrite (MustNewConstMetric_ok scrapeDurationSeconds GaugeValue duration [testUUID]
             eq_refl Hv).
  destruct (cycle_succeeds e P);
    [rewrite (MustNewConstMetric_ok up GaugeValue 1 [testUUID] eq_refl Hv)
    |rewrite (MustNewConstMetric_ok up GaugeValue 0 [testUUID] eq_refl Hv)];
    cbn [bind ret send]; reflexivity.
Qed.

Lemma speedtest_selected (e : Exporter) (P : Provider) (testUUID : string)
  (u : User) (s : Server) (b : bool) (s' : Server) (tr : list Event) :
  selection e P = Some (u, s) -> run_tests P testUUID u s = (Some (b, s'), tr) ->
  speedtest e P testUUID =
    (Some b, [Invoke OpFetchUserInfo; Invoke OpFetchServerList] ++ tr)%list.
Proof.
  unfold selection, speedtest, invoke.
  destruct (FetchUserInfo P) as [u0|err]; [|discriminate]. cbn [bind].
  destruct (FetchServerList P u0) as [l|err]; [|discriminate]. cbn [bind].
  destruct (select_server e P l) as [s0|]; [|discriminate].
  intros H Hr. injection H as <- <-. cbn [bind].
  rewrite Hr. cbn [bind ret]. rewrite app_nil_r. reflexivity.
Qed.

Lemma run_tests_trace (P : Provider) (testUUID : string) (u : User) (s : Server) :
  ValidString testUUID = true -> user_strings_ok u = true ->
  server_strings_ok s = true ->
  exists s' tr,
    run_tests P testUUID u s =
      (Some (let '(a, b, c) := phase_outcomes P s in a && b && c, s'), tr) /\
    invoked tr = [OpPingTest; OpDownloadTest; OpUploadTest] /\
    map m_desc (sent tr) = phase_kinds (phase_outcomes P s) /\
    Forall (fun m => m_labelValues m = context_labels testUUID u s) (sent tr).
Proof.
  intros Hid Hu Hs. pose proof (run_tests_shape P testUUID u s Hid Hu Hs) as H.
  unfold phase_outcomes.
  destruct (ping_call P (fix_server_url s)) as [e1 s2].
  destruct (download_call P false s2) as [e2 s3].
  destruct (upload_call P false s3) as [e3 s4].
  rewrite H. do 2 eexists. split; [reflexivity|].
  destruct e1, e2, e3; cbn; repeat split; repeat constructor.
Qed.

Lemma count_desc_map (d : Desc) (tr : list Event) :
  count_desc d tr =
    length (filter (fun d' => String.eqb (fqName d') (fqName d)) (map m_desc (sent tr))).
Proof.
  unfold count_desc. induction (sent tr) as [|m l IH]; [reflexivity|].
  simpl. destruct (String.eqb (fqName (m_desc m)) (fqName d)); simpl; auto.
Qed.

Lemma sent_app (tr1 tr2 : list Event) : sent (tr1 ++ tr2) = (sent tr1 ++ sent tr2)%list.
Proof. unfold sent. apply flat_map_app. Qed.

Lemma invoked_app (tr1 tr2 : list Event) :
  invoked (tr1 ++ tr2) = (invoked tr1 ++ invoked tr2)%list.
Proof. unfold invoked. apply flat_map_app. Qed.

Lemma Collect_trace (e : Exporter) (P : Provider) (testUUID : string) (duration : Q) :
  WellFormed P -> ValidString testUUID = true ->
  exists tr0,
    speedtest e P testUUID = (Some (cycle_succeeds e P), tr0) /\
    Collect e P testUUID duration =
      (Some tt,
       tr0 ++ [Send (mkMetric scrapeDurationSeconds GaugeValue duration [testUUID]);
               Send (mkMetric up GaugeValue (if cycle_succeeds e P then 1 else 0)
                       [testUUID])])%list /\
    match selection e P with
    | None =>
        sent tr0 = [] /\
        (invoked tr0 = [OpFetchUserInfo] \/
         invoked tr0 = [OpFetchUserInfo; OpFetchServerList])
    | Some (u, s) =>
        invoked tr0 = [OpFetchUserInfo; OpFetchServerList; OpPingTest;
                       OpDownloadTest; OpUploadTest] /\
        map m_desc (sent tr0) = phase_kinds (phase_outcomes P s) /\
        Forall (fun m => m_labelValues m = context_labels testUUID u s) (sent tr0)
    end.
Proof.
  intros Hwf Hid.
  destruct (Collect_shape e P testUUID duration Hwf Hid) as (tr0 & Hst & Hc).
  exists tr0. split; [exact Hst|]. split; [exact Hc|].
  destruct (selection e P) as [[u s]|] eqn:Esel.
  - destruct (selection_valid e P u s Hwf Esel) as [Hu Hs].
    destruct (run_tests_trace P testUUID u s Hid Hu Hs) as (s' & tr & Hr & Hi & Hk & Hl).
    pose proof (speedtest_selected e P testUUID u s _ s' tr Esel Hr) as Hst'.
    rewrite Hst in Hst'. injection Hst' as _ Htr.
    change (invoked tr0 = [OpFetchUserInfo; OpFetchServerList; OpPingTest;
                          OpDownloadTest; OpUploadTest] /\
            map m_desc (sent tr0) = phase_kinds (phase_outcomes P s) /\
            Forall (fun m => m_labelValues m = context_labels testUUID u s) (sent tr0)).
    replace tr0 with ([Invoke OpFetchUserInfo; Invoke OpFetchServerList] ++ tr)%list
      by (symmetry; assumption).
    rewrite invoked_app, sent_app, Hi. split; [reflexivity|].
    split; [exact Hk|exact Hl].
  - pose proof (speedtest_shape e P testUUID Hwf Hid) as H. rewrite Esel in H.
    destruct H as [H|H]; rewrite Hst in H; injection H as _ ->; split;
      try reflexivity; [left|right]; reflexivity.
Qed.

(* ------------------------------------------------------------------ *)
(** ** Claims about selection and the cycle *)

(** C2 fails on the code: with speedtest-go's lookup, an identifier that
    no server has still yields the first server, so with the fallback flag
    off the exporter does not fail but selects that server, runs the three
    phases and reports up = 1; the [len(servers) == 0] branch of
    [speedtest] is never taken. *)
Theorem select_server_absent_id_no_fallback :
  let e := mkExporter 999 false in
  select_server e example_provider
    [example_server "100" "http//a.example/upload.php";
     example_server "200" "http://b.example/upload.php"]
  = Some (example_server "100" "http//a.example/upload.php") /\
  selection e example_provider =
    Some (example_user, example_server "100" "http//a.example/upload.php") /\
  cycle_succeeds e example_provider = true /\
  exists tr,
    Collect e example_provider "uuid-1" 3 = (Some tt, tr) /\
    In (Send (mkMetric up GaugeValue 1 ["uuid-1"])) tr /\
    invoked tr = [OpFetchUserInfo; OpFetchServerList; OpPingTest;
                  OpDownloadTest; OpUploadTest].
Proof.
  cbv zeta. split; [reflexivity|]. split; [reflexivity|]. split; [reflexivity|].
  eexists. split; [reflexivity|]. split; [vm_compute; tauto|reflexivity].
Qed.

(** C4: once a server is selected, ping, download and upload are all
    called, in this order, whatever each returns, and the result of
    [speedtest] is the conjunction of the three phase outcomes. *)
Theorem speedtest_runs_every_phase (e : Exporter) (P : Provider)
  (testUUID : string) (u : User) (s : Server) :
  ValidString testUUID = true -> user_strings_ok u = true ->
  server_strings_ok s = true -> selection e P = Some (u, s) ->
  let '(ping_ok, download_ok, upload_ok) := phase_outcomes P s in
  exists tr,
    speedtest e P testUUID = (Some (ping_ok && download_ok && upload_ok), tr) /\
    invoked tr = [OpFetchUserInfo; OpFetchServerList; OpPingTest;
                  OpDownloadTest; OpUploadTest].
Proof.
  intros Hid Hu Hs Hsel.
  destruct (run_tests_trace P testUUID u s Hid Hu Hs) as (s' & tr & Hr & Hi & _).
  pose proof (speedtest_selected e P testUUID u s _ s' tr Hsel Hr) as Hst.
  destruct (phase_outcomes P s) as [[a b] c].
  eexists. split; [exact Hst|].
  rewrite invoked_app, Hi. reflexivity.
Qed.

Lemma speedtest_runs_every_phase_witness :
  exists tr,
    speedtest (mkExporter (-1) false) example_provider "uuid-1" =
      (Some true, tr) /\
    invoked tr = [OpFetchUserInfo; OpFetchServerList; OpPingTest;
                  OpDownloadTest; OpUploadTest].
Proof.
  exact (speedtest_runs_every_phase (mkExporter (-1) false) example_provider "uuid-1"
           example_user (example_server "100" "http//a.example/upload.php")
           eq_refl eq_refl eq_refl eq_refl).
Defined.

Lemma example_provider_wf : WellFormed example_provider.
Proof.
  split.
  - intros u H. injection H as <-. reflexivity.
  - intros u l H. injection H as <-. reflexivity.
  - intros l ids found Hl H. simpl in H. unfold Servers_FindServer in H.
    apply forallb_forall. intros x Hx.
    apply (proj1 (forallb_forall _ l) Hl). destruct l as [|y l']; [discriminate|].
    destruct (flat_map _ ids) as [|z r] eqn:Ef; injection H as <-.
    + destruct Hx as [<-|[]]. now left.
    + rewrite <- Ef in Hx. apply in_flat_map in Hx. destruct Hx as (sid & _ & Hx).
      destruct (find _ _) as [w|] eqn:Ew; [|destruct Hx].
      destruct Hx as [<-|[]]. exact (proj1 (find_some _ _ Ew)).
Qed.

(** C5: every cycle sends exactly one scrape-duration metric and exactly one
    up metric, 1 when [speedtest] succeeded and 0 otherwise; when the cycle
    stops at the user fetch, the server list fetch or the selection, no
    phase is called and no phase metric is sent. *)
Theorem Collect_up_and_duration_once (e : Exporter) (P : Provider)
  (testUUID : string) (duration : Q) :
  WellFormed P -> ValidString testUUID = true ->
  exists ok tr0 tr,
    speedtest e P testUUID = (Some ok, tr0) /\
    Collect e P testUUID duration = (Some tt, tr) /\
    count_desc scrapeDurationSeconds tr = 1%nat /\ count_desc up tr = 1%nat /\
    In (Send (mkMetric up GaugeValue (if ok then 1 else 0) [testUUID])) tr /\
    (selection e P = None ->
       (forall o, In o (invoked tr) -> o = OpFetchUserInfo \/ o = OpFetchServerList) /\
       count_desc latency tr = 0%nat /\ count_desc download tr = 0%nat /\
       count_desc upload tr = 0%nat).
Proof.
  intros Hwf Hid.
  destruct (Collect_trace e P testUUID duration Hwf Hid) as (tr0 & Hst & Hc & Hm).
  do 3 eexists. split; [exact Hst|]. split; [exact Hc|].
  rewrite !count_desc_map, sent_app.
  destruct (selection e P) as [[u s]|] eqn:Esel.
  - destruct Hm as (_ & Hk & _). rewrite map_app, Hk.
    split; [|split; [|split]].
    + destruct (phase_outcomes P s) as [[[] []] []]; reflexivity.
    + destruct (phase_outcomes P s) as [[[] []] []]; reflexivity.
    + apply in_or_app. right. right. left. reflexivity.
    + discriminate.
  - destruct Hm as (Hs0 & Hi). rewrite Hs0.
    split; [reflexivity|]. split; [reflexivity|].
    split; [apply in_or_app; right; right; left; reflexivity|].
    intros _. rewrite invoked_app.
    split; [|repeat split].
    intros o Ho. destruct Hi as [Hi|Hi]; rewrite Hi in Ho; simpl in Ho;
      intuition (subst; auto).
Qed.

Lemma Collect_up_and_duration_once_witness :
  exists ok tr0 tr,
    speedtest (mkExporter 999 false) example_provider "uuid-1" = (Some ok, tr0) /\
    Collect (mkExporter 999 false) example_provider "uuid-1" 3 = (Some tt, tr) /\
    count_desc scrapeDurationSeconds tr = 1%nat /\ count_desc up tr = 1%nat /\
    In (Send (mkMetric up GaugeValue (if ok then 1 else 0) ["uuid-1"])) tr /\
    (selection (mkExporter 999 false) example_provider = None ->
       (forall o, In o (invoked tr) -> o = OpFetchUserInfo \/ o = OpFetchServerList) /\
       count_desc latency tr = 0%nat /\ count_desc download tr = 0%nat /\
       count_desc upload tr = 0%nat).
Proof.
  exact (Collect_up_and_duration_once (mkExporter 999 false) example_provider
           "uuid-1" 3 example_provider_wf eq_refl).
Defined.

(** C6: each phase sends its metric exactly when the provider call
    succeeds: on an error it returns false and sends nothing, on success it
    sends one metric (latency in seconds, throughput through
    [normalizeSpeed]) and returns true. *)
Theorem phases_emit_iff_call_succeeds (P : Provider) (testUUID : string)
  (u : User) (s : Server) :
  ValidString testUUID = true -> user_strings_ok u = true ->
  server_strings_ok s = true ->
  (forall err, PingTest P s = Err err ->
     pingTest P testUUID u s = (Some (false, s), [Invoke OpPingTest])) /\
  (forall l, PingTest P s = Ok l ->
     pingTest P testUUID u s =
       (Some (true, set_Latency l s),
        [Invoke OpPingTest;
         Send (mkMetric latency GaugeValue (Seconds l)
                 (context_labels testUUID u s))])) /\
  (forall err, DownloadTest P false s = Err err ->
     downloadTest P testUUID u s = (Some (false, s), [Invoke OpDownloadTest])) /\
  (forall v, DownloadTest P false s = Ok v ->
     downloadTest P testUUID u s =
       (Some (true, set_DLSpeed v s),
        [Invoke OpDownloadTest;
         Send (mkMetric download GaugeValue (normalizeSpeed v)
                 (context_labels testUUID u s))])) /\
  (forall err, UploadTest P false s = Err err ->
     uploadTest P testUUID u s = (Some (false, s), [Invoke OpUploadTest])) /\
  (forall v, UploadTest P false s = Ok v ->
     uploadTest P testUUID u s =
       (Some (true, set_ULSpeed v s),
        [Invoke OpUploadTest;
         Send (mkMetric upload GaugeValue (normalizeSpeed v)
                 (context_labels testUUID u s))])).
Proof.
  intros Hid Hu Hs.
  pose proof (pingTest_shape P testUUID u s Hid Hu Hs) as Hp.
  pose proof (downloadTest_shape P testUUID u s Hid Hu Hs) as Hd.
  pose proof (uploadTest_shape P testUUID u s Hid Hu Hs) as Hup.
  unfold ping_call, download_call, upload_call in *.
  repeat split; intros x E; rewrite E in *; assumption.
Qed.

Lemma phases_emit_iff_call_succeeds_witness :
  PingTest example_provider (example_server "200" "http://b") = Ok 5000000%Z /\
  pingTest example_provider "uuid-1" example_user (example_server "200" "http://b") =
    (Some (true, set_Latency 5000000 (example_server "200" "http://b")),
     [Invoke OpPingTest;
      Send (mkMetric latency GaugeValue (Seconds 5000000)
              (context_labels "uuid-1" example_user (example_server "200" "http://b")))]).
Proof.
  split; [reflexivity|].
  exact (proj1 (proj2 (phases_emit_iff_call_succeeds example_provider "uuid-1"
                         example_user (example_server "200" "http://b")
                         eq_refl eq_refl eq_refl)) 5000000%Z eq_refl).
Defined.

(** C7: in a cycle whose three phases succeed, exactly the five kinds
    latency, download, upload, scrape duration and up are sent, each
    labelled first with the cycle's test UUID. *)
Theorem Collect_all_phases_ok_five_kinds (e : Exporter) (P : Provider)
  (testUUID : string) (duration : Q) (u : User) (s : Server) :
  WellFormed P -> ValidString testUUID = true ->
  selection e P = Some (u, s) -> phase_outcomes P s = (true, true, true) ->
  exists tr,
    Collect e P testUUID duration = (Some tt, tr) /\
    map m_desc (sent tr) = [latency; download; upload; scrapeDurationSeconds; up] /\
    Forall (fun m => hd_error (m_labelValues m) = Some testUUID) (sent tr).
Proof.
  intros Hwf Hid Hsel Hph.
  destruct (Collect_trace e P testUUID duration Hwf Hid) as (tr0 & _ & Hc & Hm).
  rewrite Hsel in Hm. destruct Hm as (_ & Hk & Hl).
  eexists. split; [exact Hc|].
  rewrite sent_app, map_app, Hk, Hph. split; [reflexivity|].
  apply Forall_app. split.
  - eapply Forall_impl; [|exact Hl]. intros m Hm. rewrite Hm. reflexivity.
  - repeat constructor.
Qed.

Lemma Collect_all_phases_ok_five_kinds_witness :
  exists tr,
    Collect (mkExporter (-1) false) example_provider "uuid-1" 3 = (Some tt, tr) /\
    map m_desc (sent tr) = [latency; download; upload; scrapeDurationSeconds; up] /\
    Forall (fun m => hd_error (m_labelValues m) = Some "uuid-1") (sent tr).
Proof.
  exact (Collect_all_phases_ok_five_kinds (mkExporter (-1) false) example_provider
           "uuid-1" 3 example_user (example_server "100" "http//a.example/upload.php")
           example_provider_wf eq_refl eq_refl eq_refl).
Defined.

(** C8: a cycle never panics: every metric is built with as many label
    values as its descriptor has label names (one for up and scrape
    duration, eleven for latency, download and upload), and a cycle with
    any error reports up = 0. *)
Theorem Collect_never_panics (e : Exporter) (P : Provider)
  (testUUID : string) (duration : Q) :
  WellFormed P -> ValidString testUUID = true ->
  exists tr,
    Collect e P testUUID duration = (Some tt, tr) /\
    Forall (fun m => length (m_labelValues m) = length (variableLabels (m_desc m)))
      (sent tr) /\
    Forall (fun m =>
      (In (m_desc m) [up; scrapeDurationSeconds] /\ length (m_labelValues m) = 1%nat) \/
      (In (m_desc m) [latency; download; upload] /\ length (m_labelValues m) = 11%nat))
      (sent tr) /\
    (cycle_succeeds e P = false ->
       In (Send (mkMetric up GaugeValue 0 [testUUID])) tr).
Proof.
  intros Hwf Hid.
  destruct (Collect_trace e P testUUID duration Hwf Hid) as (tr0 & _ & Hc & Hm).
  assert (Hph : Forall (fun m =>
      In (m_desc m) [latency; download; upload] /\ length (m_labelValues m) = 11%nat)
      (sent tr0)).
  { destruct (selection e P) as [[u s]|].
    - destruct Hm as (_ & Hk & Hl).
      apply Forall_forall. intros m Hin. split.
      + assert (Hd : In (m_desc m) (map m_desc (sent tr0))) by (now apply in_map).
        rewrite Hk in Hd. destruct (phase_outcomes P s) as [[a b] c].
        destruct a, b, c; simpl in Hd; simpl; tauto.
      + rewrite (proj1 (Forall_forall _ _) Hl m Hin). reflexivity.
    - destruct Hm as (Hs0 & _). rewrite Hs0. constructor. }
  eexists. split; [exact Hc|].
  rewrite sent_app. split; [|split].
  - apply Forall_app. split.
    + eapply Forall_impl; [|exact Hph]. simpl. intros m [Hd Hl]. rewrite Hl.
      destruct Hd as [<-|[<-|[<-|[]]]]; reflexivity.
    + repeat constructor.
  - apply Forall_app. split.
    + eapply Forall_impl; [|exact Hph]. intros m H. now right.
    + repeat constructor; left; split; simpl; auto.
  - intros Hf. rewrite Hf. apply in_or_app. right. right. left. reflexivity.
Qed.

Lemma Collect_never_panics_witness :
  exists tr,
    Collect (mkExporter 100 true) example_provider "uuid-1" 3 = (Some tt, tr) /\
    Forall (fun m => length (m_labelValues m) = length (variableLabels (m_desc m)))
      (sent tr) /\
    Forall (fun m =>
      (In (m_desc m) [up; scrapeDurationSeconds] /\ length (m_labelValues m) = 1%nat) \/
      (In (m_desc m) [latency; download; upload] /\ length (m_labelValues m) = 11%nat))
      (sent tr) /\
    (cycle_succeeds (mkExporter 100 true) example_provider = false ->
       In (Send (mkMetric up GaugeValue 0 ["uuid-1"])) tr).
Proof.
  exact (Collect_never_panics (mkExporter 100 true) example_provider "uuid-1" 3
           example_provider_wf eq_refl).
Defined.

(** C9, as stated, fails: the ping, download and upload calls store their
    results in the selected server object, whose URL is not rewritten here. *)
Lemma run_tests_writes_measurements :
  match run_tests example_provider "uuid-1" example_user
          (example_server "200" "http://b.example/upload.php") with
  | (Some (_, s'), _) =>
      URL s' = "http://b.example/upload.php" /\
      Latency s' <> Latency (example_server "200" "http://b.example/upload.php") /\
      DLSpeed s' <> DLSpeed (example_server "200" "http://b.example/upload.php") /\
      ULSpeed s' <> ULSpeed (example_server "200" "http://b.example/upload.php")
  | _ => False
  end.
Proof.
  vm_compute. split; [reflexivity|]. repeat split; discriminate.
Qed.

(** C9, as the code does it: past the selection, the server object changes
    only in its URL (the workaround, before the phases) and in the
    measurement fields [Latency], [DLSpeed] and [ULSpeed] the provider calls
    fill in; identifier, name, country, sponsor, coordinates, host and
    distance stay as selected, and the user is only read. *)
Theorem run_tests_frame (P : Provider) (testUUID : string) (u : User) (s : Server) :
  ValidString testUUID = true -> user_strings_ok u = true ->
  server_strings_ok s = true ->
  exists b s' tr,
    run_tests P testUUID u s = (Some (b, s'), tr) /\
    URL s' = URL (fix_server_url s) /\ Lat s' = Lat s /\ Lon s' = Lon s /\
    Name s' = Name s /\ Country s' = Country s /\ Sponsor s' = Sponsor s /\
    ID s' = ID s /\ Host s' = Host s /\ Distance s' = Distance s.
Proof.
  intros Hid Hu Hs. pose proof (run_tests_shape P testUUID u s Hid Hu Hs) as H.
  destruct (fix_server_url_other_fields s)
    as (F1 & F2 & F3 & F4 & F5 & F6 & F7 & F8 & _).
  destruct (ping_call_cases P (fix_server_url s)) as [[e1 E1]|[l E1]];
    rewrite E1 in H;
    match type of H with
    | context [download_call P false ?x] =>
        destruct (download_call_cases P false x) as [[e2 E2]|[v2 E2]];
        rewrite E2 in H
    end;
    match type of H with
    | context [upload_call P false ?x] =>
        destruct (upload_call_cases P false x) as [[e3 E3]|[v3 E3]];
        rewrite E3 in H
    end;
    do 3 eexists; split; try exact H;
    cbn [URL Lat Lon Name Country Sponsor ID Host Distance
         set_Latency set_DLSpeed set_ULSpeed];
    repeat split; assumption.
Qed.

Lemma run_tests_frame_witness :
  exists b s' tr,
    run_tests example_provider "uuid-1" example_user
      (example_server "100" "http//a.example/upload.php") = (Some (b, s'), tr) /\
    URL s' = URL (fix_server_url (example_server "100" "http//a.example/upload.php")) /\
    Lat s' = "52.50" /\ Lon s' = "13.38" /\ Name s' = "Berlin" /\
    Country s' = "Germany" /\ Sponsor s' = "Sponsor" /\ ID s' = "100" /\
    Host s' = "speed.example:8080" /\ Distance s' = 21 # 10.
Proof.
  exact (run_tests_frame example_provider "uuid-1" example_user
           (example_server "100" "http//a.example/upload.php") eq_refl eq_refl eq_refl).
Defined.

(* ================================================================== *)
(** * Further properties of the exporter *)

(** ** Helpers *)

Lemma legacy_downloadTest_shape (P : Provider) (testUUID : string) (u : User)
  (s : Server) :
  ValidString testUUID = true -> user_strings_ok u = true ->
  server_strings_ok s = true ->
  Legacy.downloadTest P testUUID u s =
    match download_call P false s with
    | (Some _, s') => (Some (false, s'), [Invoke OpDownloadTest])
    | (None, s') =>
        (Some (true, s'),
         [Invoke OpDownloadTest;
          Send (mkMetric download GaugeValue
                  (if Qltb Legacy.speedThreshold (DLSpeed s') then DLSpeed s'
                   else DLSpeed s' * 125000)
                  (context_labels testUUID u s'))])
    end.
Proof.
  intros Hid Hu Hs. pose proof (download_call_context P false s) as Hc.
  unfold Legacy.downloadTest, server_DownloadTest, invoke.
  destruct (download_call P false s) as [[err|] s'] eqn:E; cbn [bind snd] in *;
    [reflexivity|].
  erewrite MustNewConstMetric_ok; [reflexivity|reflexivity|].
  apply (context_labels_valid testUUID u s'); auto. now rewrite (same_context_ok s s' Hc).
Qed.

Lemma legacy_uploadTest_shape (P : Provider) (testUUID : string) (u : User)
  (s : Server) :
  ValidString testUUID = true -> user_strings_ok u = true ->
  server_strings_ok s = true ->
  Legacy.uploadTest P testUUID u s =
    match upload_call P false s with
    | (Some _, s') => (Some (false, s'), [Invoke OpUploadTest])
    | (None, s') =>
        (Some (true, s'),
         [Invoke OpUploadTest;
          Send (mkMetric upload GaugeValue
                  (if Qltb Legacy.speedThreshold (ULSpeed s') then ULSpeed s'
                   else ULSpeed s' * 125000)
                  (context_labels testUUID u s'))])
    end.
Proof.
  intros Hid Hu Hs. pose proof (upload_call_context P false s) as Hc.
  unfold Legacy.uploadTest, server_UploadTest, invoke.
  destruct (upload_call P false s) as [[err|] s'] eqn:E; cbn [bind snd] in *;
    [reflexivity|].
  erewrite MustNewConstMetric_ok; [reflexivity|reflexivity|].
  apply (context_labels_valid testUUID u s'); auto. now rewrite (same_context_ok s s' Hc).
Qed.

(** The two conversions agree exactly on 0 and on [20, 20000). *)
Lemma legacy_value_iff (v : Q) :
  (if Qltb Legacy.speedThreshold v then v else v * 125000) == normalizeSpeed v <->
  (20 <= v /\ v < 20000) \/ v == 0.
Proof.
  unfold normalizeSpeed, Legacy.speedThreshold.
  change (v / 8) with (v * (1 # 8)). split_bands;
    (split;
     [ intros H; first [ exfalso; lra | left; split; lra | right; lra ]
     | intros [[H1 H2]|H1]; lra ]).
Qed.

Lemma ping_call_URL (P : Provider) (s : Server) : URL (snd (ping_call P s)) = URL s.
Proof. destruct (ping_call_cases P s) as [[e E]|[l E]]; rewrite E; reflexivity. Qed.

Lemma download_call_URL (P : Provider) (b : bool) (s : Server) :
  URL (snd (download_call P b s)) = URL s.
Proof. destruct (download_call_cases P b s) as [[e E]|[v E]]; rewrite E; reflexivity. Qed.

Lemma guard_urls_calls (P : Provider) (s : Server) :
  HasPrefix (URL s) "http//" = false ->
  ping_call (guard_urls P) s = ping_call P s /\
  (forall b, download_call (guard_urls P) b s = download_call P b s) /\
  (forall b, upload_call (guard_urls P) b s = upload_call P b s).
Proof.
  intros H. unfold ping_call, download_call, upload_call, guard_urls.
  cbn [PingTest DownloadTest UploadTest]. rewrite H. auto.
Qed.

Ltac phase_URL_tac :=
  intros H; unfold MustNewConstMetric in H;
  repeat match type of H with
  | context [NewConstMetric ?d ?vt ?v ?l] => destruct (NewConstMetric d vt v l)
  end;
  cbn in H; first [discriminate | injection H as _ <- _; reflexivity].

Lemma pingTest_URL (P : Provider) (testUUID : string) (u : User) (s : Server)
  (b : bool) (s' : Server) (tr : list Event) :
  pingTest P testUUID u s = (Some (b, s'), tr) -> URL s' = URL s.
Proof.
  unfold pingTest, server_PingTest, invoke. cbn [bind].
  destruct (ping_call_cases P s) as [[e E]|[l E]]; rewrite E; phase_URL_tac.
Qed.

Lemma downloadTest_URL (P : Provider) (testUUID : string) (u : User) (s : Server)
  (b : bool) (s' : Server) (tr : list Event) :
  downloadTest P testUUID u s = (Some (b, s'), tr) -> URL s' = URL s.
Proof.
  unfold downloadTest, server_DownloadTest, invoke. cbn [bind].
  destruct (download_call_cases P false s) as [[e E]|[v E]]; rewrite E; phase_URL_tac.
Qed.

Lemma phases_guard_urls (P : Provider) (testUUID : string) (u : User) (s : Server) :
  HasPrefix (URL s) "http//" = false ->
  pingTest (guard_urls P) testUUID u s = pingTest P testUUID u s /\
  downloadTest (guard_urls P) testUUID u s = downloadTest P testUUID u s /\
  uploadTest (guard_urls P) testUUID u s = uploadTest P testUUID u s.
Proof.
  intros H. destruct (guard_urls_calls P s H) as (Ep & Ed & Eu).
  unfold pingTest, downloadTest, uploadTest,
    server_PingTest, server_DownloadTest, server_UploadTest, invoke.
  rewrite Ep, Ed, Eu. auto.
Qed.

Lemma run_tests_guard_urls (P : Provider) (testUUID : string) (u : User) (s : Server) :
  run_tests (guard_urls P) testUUID u s = run_tests P testUUID u s.
Proof.
  unfold run_tests. cbv zeta.
  pose proof (fix_server_url_no_prefix s) as H1.
  generalize (fix_server_url s) H1. clear H1. intros s1 H1.
  destruct (phases_guard_urls P testUUID u s1 H1) as (Ep & _ & _). rewrite Ep.
  destruct (pingTest P testUUID u s1) as [[[b2 s2]|] tr1] eqn:E1;
    cbn [bind]; [|reflexivity].
  assert (H2 : HasPrefix (URL s2) "http//" = false)
    by now rewrite (pingTest_URL P testUUID u s1 b2 s2 tr1 E1).
  destruct (phases_guard_urls P testUUID u s2 H2) as (_ & Ed & _). rewrite Ed.
  destruct (downloadTest P testUUID u s2) as [[[b3 s3]|] tr2] eqn:E2;
    cbn [bind]; [|reflexivity].
  assert (H3 : HasPrefix (URL s3) "http//" = false)
    by now rewrite (downloadTest_URL P testUUID u s2 b3 s3 tr2 E2).
  destruct (phases_guard_urls P testUUID u s3 H3) as (_ & _ & Eu). rewrite Eu.
  reflexivity.
Qed.

Lemma closing_descs_not_phase (d : Desc) :
  In d [scrapeDurationSeconds; up] -> ~ In d [latency; download; upload].
Proof.
  intros Hd Hp.
  destruct Hd as [<-|[<-|[]]]; destruct Hp as [H|[H|[H|[]]]];
    apply (f_equal fqName) in H; vm_compute in H; discriminate.
Qed.

(* ------------------------------------------------------------------ *)
(** ** Describe and New *)

(** [Describe] announces five descriptors with pairwise distinct names,
    and every metric a cycle sends is built on one of them. *)
Theorem Describe_covers_Collect (e : Exporter) (P : Provider)
  (testUUID : string) (duration : Q) :
  WellFormed P -> ValidString testUUID = true ->
  NoDup (map fqName (Describe e)) /\
  exists tr,
    Collect e P testUUID duration = (Some tt, tr) /\
    Forall (fun m => In (m_desc m) (Describe e)) (sent tr).
Proof.
  intros Hwf Hid. split.
  - vm_compute.
    repeat (apply NoDup_cons;
            [cbn; intros H; repeat destruct H as [H|H]; try discriminate; exact H|]).
    apply NoDup_nil.
  - destruct (Collect_trace e P testUUID duration Hwf Hid) as (tr0 & _ & Hc & Hm).
    eexists. split; [exact Hc|].
    rewrite sent_app. apply Forall_app. split; [|repeat constructor; cbn; tauto].
    apply Forall_forall. intros m Hin.
    assert (Hk : In (m_desc m) (map m_desc (sent tr0))) by (apply in_map; exact Hin).
    destruct (selection e P) as [[u s]|].
    + destruct Hm as (_ & Hmap & _). rewrite Hmap in Hk.
      unfold phase_kinds in Hk. destruct (phase_outcomes P s) as [[a b] c].
      unfold Describe. cbn.
      destruct a, b, c; cbn in Hk; intuition.
    + destruct Hm as (Hs & _). rewrite Hs in Hin. destruct Hin.
Qed.

Lemma Describe_covers_Collect_witness :
  NoDup (map fqName (Describe (mkExporter (-1) false))) /\
  exists tr,
    Collect (mkExporter (-1) false) example_provider "uuid-1" 3 = (Some tt, tr) /\
    Forall (fun m => In (m_desc m) (Describe (mkExporter (-1) false))) (sent tr).
Proof.
  exact (Describe_covers_Collect (mkExporter (-1) false) example_provider "uuid-1" 3
           example_provider_wf eq_refl).
Defined.

(** An exporter made by [New] with the sentinel -1 takes the first server
    of the list: the fallback flag and the provider's [FindServer] have no
    effect on a cycle. *)
Theorem New_sentinel_ignores_lookup (b1 b2 : bool) (P : Provider)
  (F : list Server -> list Z -> result (list Server)) (testUUID : string) (duration : Q) :
  Collect (fst (New (-1) b1)) P testUUID duration =
  Collect (fst (New (-1) b2))
    (mkProvider (FetchUserInfo P) (FetchServerList P) F
       (PingTest P) (DownloadTest P) (UploadTest P)) testUUID duration.
Proof. reflexivity. Qed.

(* ------------------------------------------------------------------ *)
(** ** The normalizer *)

(** [normalizeSpeed] reports a positive reading as a positive speed, zero as
    zero, and a reading of at most zero never as a positive speed. *)
Theorem normalizeSpeed_sign (r : Q) :
  (0 < r -> 0 < normalizeSpeed r) /\
  (r == 0 -> normalizeSpeed r == 0) /\
  (r <= 0 -> normalizeSpeed r <= 0).
Proof.
  unfold normalizeSpeed. change (r / 8) with (r * (1 # 8)).
  split_bands; repeat split; intros; lra.
Qed.

Lemma normalizeSpeed_sign_witness :
  0 < normalizeSpeed 5 /\ normalizeSpeed (-3) <= 0.
Proof.
  split; [apply (proj1 (normalizeSpeed_sign 5))
         |apply (proj2 (proj2 (normalizeSpeed_sign (-3))))];
    vm_compute; first [reflexivity | intros H; discriminate].
Defined.

(** Every reading of at least 20 is reported as at least 2500000 bytes per
    second, and every positive reading below 20000000 as less than
    2500000000: the Mbps and Kbps bands land on the same range. *)
Theorem normalizeSpeed_ranges (r : Q) :
  (20 <= r -> 2500000 <= normalizeSpeed r) /\
  (0 < r -> r < 20000000 -> normalizeSpeed r < 2500000000) /\
  (20 <= r -> r < 20000 -> 2500000 <= normalizeSpeed r < 2500000000) /\
  (20000 <= r -> r < 20000000 -> 2500000 <= normalizeSpeed r < 2500000000).
Proof.
  unfold normalizeSpeed. change (r / 8) with (r * (1 # 8)).
  split_bands; repeat split; intros; lra.
Qed.

Lemma normalizeSpeed_ranges_witness :
  2500000 <= normalizeSpeed 20 /\ normalizeSpeed 20 < 2500000000.
Proof.
  apply (proj1 (proj2 (proj2 (normalizeSpeed_ranges 20))));
    vm_compute; first [reflexivity | intros H; discriminate].
Defined.

(* ------------------------------------------------------------------ *)
(** ** The earlier phases against the current ones *)

(** On a failed call the earlier and the current download and upload
    phases behave alike; on a successful call both send one metric with the
    same descriptor and labels, and the two values are equal exactly when
    the reading is 0 or lies in [20, 20000). *)
Theorem legacy_phases_vs_current (P : Provider) (testUUID : string) (u : User)
  (s : Server) :
  ValidString testUUID = true -> user_strings_ok u = true ->
  server_strings_ok s = true ->
  (forall err, DownloadTest P false s = Err err ->
     Legacy.downloadTest P testUUID u s = downloadTest P testUUID u s) /\
  (forall err, UploadTest P false s = Err err ->
     Legacy.uploadTest P testUUID u s = uploadTest P testUUID u s) /\
  (forall v, DownloadTest P false s = Ok v ->
     exists m m',
       Legacy.downloadTest P testUUID u s =
         (Some (true, set_DLSpeed v s), [Invoke OpDownloadTest; Send m]) /\
       downloadTest P testUUID u s =
         (Some (true, set_DLSpeed v s), [Invoke OpDownloadTest; Send m']) /\
       m_desc m = m_desc m' /\ m_labelValues m = m_labelValues m' /\
       (m_value m == m_value m' <-> (20 <= v /\ v < 20000) \/ v == 0)) /\
  (forall v, UploadTest P false s = Ok v ->
     exists m m',
       Legacy.uploadTest P testUUID u s =
         (Some (true, set_ULSpeed v s), [Invoke OpUploadTest; Send m]) /\
       uploadTest P testUUID u s =
         (Some (true, set_ULSpeed v s), [Invoke OpUploadTest; Send m']) /\
       m_desc m = m_desc m' /\ m_labelValues m = m_labelValues m' /\
       (m_value m == m_value m' <-> (20 <= v /\ v < 20000) \/ v == 0)).
Proof.
  intros Hid Hu Hs.
  rewrite (legacy_downloadTest_shape P testUUID u s Hid Hu Hs),
          (legacy_uploadTest_shape P testUUID u s Hid Hu Hs),
          (downloadTest_shape P testUUID u s Hid Hu Hs),
          (uploadTest_shape P testUUID u s Hid Hu Hs).
  unfold download_call, upload_call.
  repeat split.
  - intros err E. rewrite E. reflexivity.
  - intros err E. rewrite E. reflexivity.
  - intros v E. rewrite E. do 2 eexists.
    split; [reflexivity|]. split; [reflexivity|]. split; [reflexivity|].
    split; [reflexivity|]. exact (legacy_value_iff v).
  - intros v E. rewrite E. do 2 eexists.
    split; [reflexivity|]. split; [reflexivity|]. split; [reflexivity|].
    split; [reflexivity|]. exact (legacy_value_iff v).
Qed.

Lemma legacy_phases_vs_current_witness :
  let s := example_server "100" "http://a.example/upload.php" in
  (forall err, DownloadTest example_provider false s = Err err ->
     Legacy.downloadTest example_provider "uuid-1" example_user s =
     downloadTest example_provider "uuid-1" example_user s) /\
  (forall err, UploadTest example_provider false s = Err err ->
     Legacy.uploadTest example_provider "uuid-1" example_user s =
     uploadTest example_provider "uuid-1" example_user s) /\
  (forall v, DownloadTest example_provider false s = Ok v ->
     exists m m',
       Legacy.downloadTest example_provider "uuid-1" example_user s =
         (Some (true, set_DLSpeed v s), [Invoke OpDownloadTest; Send m]) /\
       downloadTest example_provider "uuid-1" example_user s =
         (Some (true, set_DLSpeed v s), [Invoke OpDownloadTest; Send m']) /\
       m_desc m = m_desc m' /\ m_labelValues m = m_labelValues m' /\
       (m_value m == m_value m' <-> (20 <= v /\ v < 20000) \/ v == 0)) /\
  (forall v, UploadTest example_provider false s = Ok v ->
     exists m m',
       Legacy.uploadTest example_provider "uuid-1" example_user s =
         (Some (true, set_ULSpeed v s), [Invoke OpUploadTest; Send m]) /\
       uploadTest example_provider "uuid-1" example_user s =
         (Some (true, set_ULSpeed v s), [Invoke OpUploadTest; Send m']) /\
       m_desc m = m_desc m' /\ m_labelValues m = m_labelValues m' /\
       (m_value m == m_value m' <-> (20 <= v /\ v < 20000) \/ v == 0)).
Proof.
  exact (legacy_phases_vs_current example_provider "uuid-1" example_user
           (example_server "100" "http://a.example/upload.php") eq_refl eq_refl eq_refl).
Defined.

(* ------------------------------------------------------------------ *)
(** ** Labels and order of the metrics of a cycle *)

(** Every metric of every cycle, whatever fails, carries the cycle's test
    UUID as its first label value. *)
Theorem Collect_uuid_first_label (e : Exporter) (P : Provider)
  (testUUID : string) (duration : Q) :
  WellFormed P -> ValidString testUUID = true ->
  exists tr,
    Collect e P testUUID duration = (Some tt, tr) /\
    Forall (fun m => hd_error (m_labelValues m) = Some testUUID) (sent tr).
Proof.
  intros Hwf Hid.
  destruct (Collect_trace e P testUUID duration Hwf Hid) as (tr0 & _ & Hc & Hm).
  eexists. split; [exact Hc|].
  rewrite sent_app. apply Forall_app. split; [|repeat constructor].
  destruct (selection e P) as [[u s]|].
  - destruct Hm as (_ & _ & Hl). eapply Forall_impl; [|exact Hl].
    intros m ->. reflexivity.
  - destruct Hm as (-> & _). constructor.
Qed.

Lemma Collect_uuid_first_label_witness :
  exists tr,
    Collect (mkExporter 300 false) example_provider "uuid-1" 3 = (Some tt, tr) /\
    Forall (fun m => hd_error (m_labelValues m) = Some "uuid-1") (sent tr).
Proof.
  exact (Collect_uuid_first_label (mkExporter 300 false) example_provider "uuid-1" 3
           example_provider_wf eq_refl).
Defined.

(** The latency, download and upload metrics of a cycle all carry the same
    eleven label values: the test UUID, the user's coordinates, IP and ISP,
    and the selected server's coordinates, identifier, name, country and
    distance formatted with %f. *)
Theorem Collect_phase_metrics_same_labels (e : Exporter) (P : Provider)
  (testUUID : string) (duration : Q) (u : User) (s : Server) :
  WellFormed P -> ValidString testUUID = true -> selection e P = Some (u, s) ->
  exists tr,
    Collect e P testUUID duration = (Some tt, tr) /\
    Forall (fun m => In (m_desc m) [latency; download; upload] ->
                     m_labelValues m = context_labels testUUID u s) (sent tr).
Proof.
  intros Hwf Hid Hsel.
  destruct (Collect_trace e P testUUID duration Hwf Hid) as (tr0 & _ & Hc & Hm).
  rewrite Hsel in Hm. destruct Hm as (_ & _ & Hl).
  eexists. split; [exact Hc|].
  rewrite sent_app. apply Forall_app. split.
  - eapply Forall_impl; [|exact Hl]. intros m H _. exact H.
  - apply Forall_forall. intros m Hin Hp. exfalso.
    apply (closing_descs_not_phase (m_desc m)); [|exact Hp].
    cbn in Hin. destruct Hin as [<-|[<-|[]]]; cbn; tauto.
Qed.

Lemma Collect_phase_metrics_same_labels_witness :
  exists tr,
    Collect (mkExporter (-1) false) example_provider "uuid-1" 3 = (Some tt, tr) /\
    Forall (fun m => In (m_desc m) [latency; download; upload] ->
                     m_labelValues m =
                       context_labels "uuid-1" example_user
                         (example_server "100" "http//a.example/upload.php")) (sent tr).
Proof.
  exact (Collect_phase_metrics_same_labels (mkExporter (-1) false) example_provider
           "uuid-1" 3 example_user (example_server "100" "http//a.example/upload.php")
           example_provider_wf eq_refl eq_refl).
Defined.

(** A cycle ends with the scrape-duration metric and then the up metric,
    after all phase metrics; up is 1 exactly when the fetches, the selection
    and the three phases all succeeded. *)
Theorem Collect_ends_with_duration_then_up (e : Exporter) (P : Provider)
  (testUUID : string) (duration : Q) :
  WellFormed P -> ValidString testUUID = true ->
  exists tr0,
    Collect e P testUUID duration =
      (Some tt,
       tr0 ++ [Send (mkMetric scrapeDurationSeconds GaugeValue duration [testUUID]);
               Send (mkMetric up GaugeValue (if cycle_succeeds e P then 1 else 0)
                       [testUUID])])%list /\
    Forall (fun m => In (m_desc m) [latency; download; upload]) (sent tr0).
Proof.
  intros Hwf Hid.
  destruct (Collect_trace e P testUUID duration Hwf Hid) as (tr0 & _ & Hc & Hm).
  exists tr0. split; [exact Hc|].
  destruct (selection e P) as [[u s]|].
  - destruct Hm as (_ & Hk & _). apply Forall_forall. intros m Hin.
    assert (H : In (m_desc m) (map m_desc (sent tr0))) by (apply in_map; exact Hin).
    rewrite Hk in H. unfold phase_kinds in H.
    destruct (phase_outcomes P s) as [[a b] c].
    destruct a, b, c; cbn in H |- *; intuition.
  - destruct Hm as (-> & _). constructor.
Qed.

Lemma Collect_ends_with_duration_then_up_witness :
  exists tr0,
    Collect (mkExporter 200 false) example_provider "uuid-1" 3 =
      (Some tt,
       tr0 ++ [Send (mkMetric scrapeDurationSeconds GaugeValue 3 ["uuid-1"]);
               Send (mkMetric up GaugeValue
                       (if cycle_succeeds (mkExporter 200 false) example_provider
                        then 1 else 0) ["uuid-1"])])%list /\
    Forall (fun m => In (m_desc m) [latency; download; upload]) (sent tr0).
Proof.
  exact (Collect_ends_with_duration_then_up (mkExporter 200 false) example_provider
           "uuid-1" 3 example_provider_wf eq_refl).
Defined.

(* ------------------------------------------------------------------ *)
(** ** The phase calls never see the malformed URL *)

(** The ping, download and upload calls never receive a server whose URL
    starts with "http//": a provider that refuses such servers yields
    exactly the same cycle. *)
Theorem Collect_phase_calls_never_see_http_slash_slash (e : Exporter) (P : Provider)
  (testUUID : string) (duration : Q) :
  Collect e (guard_urls P) testUUID duration = Collect e P testUUID duration.
Proof.
  unfold Collect, speedtest. cbn [FetchUserInfo FetchServerList guard_urls].
  assert (Hsel : forall l, select_server e (guard_urls P) l = select_server e P l)
    by reflexivity.
  destruct (FetchUserInfo P) as [u|err]; [|reflexivity].
  unfold invoke. cbn [bind].
  destruct (FetchServerList P u) as [l|err]; [|reflexivity]. cbn [bind].
  rewrite Hsel. destruct (select_server e P l) as [s|]; [|reflexivity].
  rewrite run_tests_guard_urls. reflexivity.
Qed.

(* ------------------------------------------------------------------ *)
(** ** Selection with the library's lookup *)

(** With speedtest-go's [FindServer], a configured identifier selects the
    first server with that identifier and otherwise the first server of
    the list (none on an empty list): the fallback flag has no effect. *)
Theorem select_server_with_library_lookup (e : Exporter) (P : Provider)
  (servers : list Server) :
  FindServer P = Servers_FindServer -> serverID e <> (-1)%Z ->
  select_server e P servers =
    match find (fun s => Z.eqb (Atoi (ID s)) (serverID e)) servers with
    | Some s => Some s
    | None => hd_error servers
    end.
Proof.
  intros HF Hid. unfold select_server.
  apply Z.eqb_neq in Hid. rewrite Hid, HF. unfold Servers_FindServer.
  destruct servers as [|x l]; [reflexivity|]. cbn [flat_map].
  destruct (find _ (x :: l)) as [s|]; reflexivity.
Qed.

Lemma select_server_with_library_lookup_witness :
  FindServer example_provider = Servers_FindServer /\
  select_server (mkExporter 999 false) example_provider
    [example_server "100" "http//a.example/upload.php";
     example_server "200" "http://b.example/upload.php"]
  = Some (example_server "100" "http//a.example/upload.php").
Proof.
  split; [reflexivity|].
  exact (select_server_with_library_lookup (mkExporter 999 false) example_provider
           [example_server "100" "http//a.example/upload.php";
            example_server "200" "http://b.example/upload.php"]
           eq_refl ltac:(discriminate)).
Defined.
